(** * coax: the state value function wrapper [V] (coax/_core/value_v.py)

    A shallow embedding of the class [V] and of the pieces of the Python
    runtime, numpy, jax and gym it touches, followed by the properties of
    its constructor defaults, of its two validation hooks, of
    [example_data] and of the call operator.

    Python exceptions are results of an error type, methods thread the
    instance they are called on, and random generators are threaded
    explicitly.  What belongs to other modules (gym spaces, [safe_sample],
    [ProbaDist], the parameters, function state and random keys of
    [BaseFunc], Haiku's transformation of [func]) enters as variables of the
    section the class is modelled in. *)

From Stdlib Require Import List String Ascii ZArith Lia Bool Decimal DecimalString.
Import ListNotations.
Open Scope string_scope.
Open Scope list_scope.

Set Implicit Arguments.

(** ** Python exceptions and fallible computations *)

Module Py.

(** The exception classes that the code raises itself or that the library
    calls it makes raise.  [UserError] stands for any other exception class
    raised from a user supplied callable.  The messages of the exceptions
    raised by [V] itself are kept to the letter; those of library exceptions
    are shortened. *)
Inductive exn : Type :=
| TypeError (msg : string)
| ValueError (msg : string)
| IndexError (msg : string)
| UserError (cls msg : string).

Inductive result (A : Type) : Type :=
| Ok (a : A)
| Raise (e : exn).
Arguments Ok {A} a.
Arguments Raise {A} e.

Definition bind {A B} (m : result A) (k : A -> result B) : result B :=
  match m with
  | Ok a => k a
  | Raise e => Raise e
  end.

(** [str(e)] *)
Definition message (e : exn) : string :=
  match e with
  | TypeError msg | ValueError msg | IndexError msg | UserError _ msg => msg
  end.

Definition is_ok {A} (m : result A) : bool :=
  match m with Ok _ => true | Raise _ => false end.

Definition is_type_error {A} (m : result A) : bool :=
  match m with Raise (TypeError _) => true | _ => false end.

(** A list comprehension [[f(x) for x in xs]] whose body may raise: the
    elements are evaluated from left to right, the first exception wins. *)
Fixpoint comprehension {A B} (f : A -> result B) (xs : list A) : result (list B) :=
  match xs with
  | [] => Ok []
  | x :: xs' =>
      bind (f x) (fun y =>
      bind (comprehension f xs') (fun ys => Ok (y :: ys)))
  end.

End Py.
Export Py.

Declare Scope py_scope.
Delimit Scope py_scope with py.
Notation "x <- m ;; k" := (Py.bind m (fun x => k))
  (at level 100, m at next level, right associativity) : py_scope.
Notation "' p <- m ;; k" := (Py.bind m (fun p => k))
  (at level 100, p pattern, m at next level, right associativity) : py_scope.
Open Scope py_scope.

(** ** Text formatting used by the error messages *)

Module Fmt.
Local Open Scope string_scope.

(** [str(n)] for a non-negative integer. *)
Definition str_nat (n : nat) : string := NilEmpty.string_of_uint (Nat.to_uint n).

(** [sep.join(xs)] *)
Definition join (sep : string) (xs : list string) : string := String.concat sep xs.

(** [repr] of a tuple of integers: [()], [(3,)], [(2, 3)]. *)
Definition repr_tuple (xs : list nat) : string :=
  match xs with
  | [] => "()"
  | [x] => "(" ++ str_nat x ++ ",)"
  | _ => "(" ++ join ", " (map str_nat xs) ++ ")"
  end.

(** [s] occurs in [t]. *)
Definition occurs_in (s t : string) : Prop :=
  exists pre post, t = pre ++ s ++ post.

End Fmt.

(** ** numpy / jax.numpy arrays and jax pytrees *)

Module Np.

Inductive DType : Type :=
| bool_ | int8 | int16 | int32 | int64
| uint8 | uint16 | uint32 | uint64
| float16 | bfloat16 | float32 | float64
| complex64 | complex128.

(** [str(dtype)] *)
Definition dtype_name (d : DType) : string :=
  match d with
  | bool_ => "bool" | int8 => "int8" | int16 => "int16" | int32 => "int32"
  | int64 => "int64" | uint8 => "uint8" | uint16 => "uint16"
  | uint32 => "uint32" | uint64 => "uint64" | float16 => "float16"
  | bfloat16 => "bfloat16" | float32 => "float32" | float64 => "float64"
  | complex64 => "complex64" | complex128 => "complex128"
  end.

(** [jnp.issubdtype(d, jnp.floating)] *)
Definition is_floating (d : DType) : bool :=
  match d with
  | float16 | bfloat16 | float32 | float64 => true
  | _ => false
  end.

(** Equality of shape tuples, [a.shape == b.shape]. *)
Definition shape_eqb (s1 s2 : list nat) : bool :=
  if list_eq_dec Nat.eq_dec s1 s2 then true else false.

(** Number of elements of an array of the given shape. *)
Definition size (shape : list nat) : nat := fold_right Nat.mul 1 shape.

Section Arrays.

Variable scalar : Type.

(** An array: element type, shape tuple and the elements in row-major
    order. *)
Record ndarray : Type := mk_ndarray {
  dtype : DType;
  shape : list nat;
  data : list scalar
}.

Definition ndim (a : ndarray) : nat := List.length (shape a).

(** [a[0]]: the first slice along axis 0. *)
Definition getitem0 (a : ndarray) : result ndarray :=
  match shape a with
  | [] => Raise (IndexError "too many indices for array")
  | 0 :: _ => Raise (IndexError "index is out of bounds for axis 0 with size 0")
  | S _ :: rest =>
      Ok {| dtype := dtype a; shape := rest; data := firstn (size rest) (data a) |}
  end.

(** The element type of the result of an operation on several arrays
    ([jnp.result_type]), for a given promotion table. *)
Variable promote_types : DType -> DType -> DType.

Definition result_type (a : ndarray) (rest : list ndarray) : DType :=
  fold_left (fun d x => promote_types d (dtype x)) rest (dtype a).

(** [jnp.concatenate(xs, axis=0)] *)
Definition concatenate (xs : list ndarray) : result ndarray :=
  match xs with
  | [] => Raise (ValueError "Need at least one array to concatenate.")
  | a :: rest =>
      if existsb (fun x => Nat.eqb (ndim x) 0) xs then
        Raise (ValueError "Zero-dimensional arrays cannot be concatenated.")
      else if forallb (fun x => shape_eqb (tl (shape x)) (tl (shape a))) rest then
        Ok {| dtype := result_type a rest;
              shape := list_sum (map (fun x => hd 0 (shape x)) xs) :: tl (shape a);
              data := List.concat (map data xs) |}
      else
        Raise (TypeError "Cannot concatenate arrays with shapes that differ in dimensions other than the one being concatenated")
  end.

(** [jnp.asarray] stores 64-bit element types as their 32-bit counterparts
    unless the [jax_enable_x64] flag is set. *)
Variable jax_enable_x64 : bool.

Definition canonicalize_dtype (d : DType) : DType :=
  if jax_enable_x64 then d
  else match d with
       | int64 => int32
       | uint64 => uint32
       | float64 => float32
       | complex128 => complex64
       | _ => d
       end.

Definition jnp_asarray (a : ndarray) : ndarray :=
  {| dtype := canonicalize_dtype (dtype a); shape := shape a; data := data a |}.

(** *** Pytrees

    A pytree is kept the way jax handles it: flattened into its tree
    definition and the list of its leaves, in order.  Tree definitions are
    compared for equality only. *)

Variable TreeDef : Type.
Hypothesis TreeDef_eq_dec : forall d1 d2 : TreeDef, {d1 = d2} + {d1 <> d2}.

Record pytree : Type := mk_pytree {
  treedef : TreeDef;
  leaves : list ndarray
}.

(** [treedef.flatten_up_to(t)] *)
Definition flatten_up_to (d : TreeDef) (t : pytree) : result (list ndarray) :=
  if TreeDef_eq_dec (treedef t) d then Ok (leaves t)
  else Raise (ValueError "Tree structure mismatch").

(** [zip] applied to the unpacked rows, for a non-empty list of rows: the
    columns, as many as the shortest row has elements. *)
Fixpoint zip_star (A : Type) (rows : list (list A)) : list (list A) :=
  match rows with
  | [] => []
  | r :: rows' =>
      match rows' with
      | [] => map (fun x => [x]) r
      | _ :: _ => map (fun p => fst p :: snd p) (combine r (zip_star rows'))
      end
  end.

(** [jax.tree_multimap(f, *trees)].  The function's signature is
    [tree_multimap(f, tree, *rest)], so that unpacking an empty list leaves
    the required argument [tree] missing. *)
Definition tree_multimap (f : list ndarray -> result ndarray)
    (trees : list pytree) : result pytree :=
  match trees with
  | [] =>
      Raise (TypeError "tree_multimap() missing 1 required positional argument: 'tree'")
  | tree :: rest =>
      rest_leaves <- comprehension (flatten_up_to (treedef tree)) rest ;;
      new_leaves <- comprehension f (zip_star (leaves tree :: rest_leaves)) ;;
      Ok {| treedef := treedef tree; leaves := new_leaves |}
  end.


(** [t] has tree definition [d], and its leaves have leading dimension [n]
    followed by the dimensions listed in [trailing], leaf by leaf. *)
Definition batched_as (d : TreeDef) (trailing : list (list nat)) (n : nat)
    (t : pytree) : Prop :=
  treedef t = d /\ Forall2 (fun a tr => shape a = n :: tr) (leaves t) trailing.

End Arrays.

End Np.

(** ** gym: environments and their observation spaces *)

Module Gym.

Section Spaces.

Variable Space : Type.

(** What [env.observation_space] evaluates to: an instance of [gym.Space],
    or an object of some other type, of which the qualified type name is
    kept. *)
Inductive object : Type :=
| IsSpace (sp : Space)
| Other (type_name : string).

(** [isinstance(o, Space)] *)
Definition isinstance_Space (o : object) : bool :=
  match o with IsSpace _ => true | Other _ => false end.

(** [namedtuple('Env', ('observation_space',))], and any environment as far
    as this class reads it. *)
Record Env : Type := mk_Env { observation_space : object }.

End Spaces.

Arguments Other {Space} type_name.

(** [str(type(o))] for an object of the type named [type_name]. *)
Definition type_repr (type_name : string) : string :=
  ("<class '" ++ type_name ++ "'>")%string.

End Gym.

(** ** The class [V] *)

Module V.

Section Wrapper.

Local Open Scope string_scope.

(** *** The environment of the class: arrays, Python objects, gym spaces,
    random generators and the base component *)

Variable scalar : Type.
Variable promote_types : Np.DType -> Np.DType -> Np.DType.
Variable jax_enable_x64 : bool.
Variable TreeDef : Type.
Hypothesis TreeDef_eq_dec : forall d1 d2 : TreeDef, {d1 = d2} + {d1 <> d2}.

Local Abbreviation ndarray := (Np.ndarray scalar).
Local Abbreviation pytree := (Np.pytree scalar TreeDef).

(** Python objects other than arrays are opaque. *)
Variable PyObject : Type.

(** A Python value: an instance of [jnp.ndarray], or another object. *)
Inductive value : Type :=
| Array (a : ndarray)
| Object (o : PyObject).

(** [o.__class__.__name__], [o[0]] and [onp.asarray(o)] for the opaque
    objects. *)
Variable class_name : PyObject -> string.
Variable object_getitem0 : PyObject -> result value.
Variable object_asarray : PyObject -> result ndarray.

(** [v[0]] *)
Definition getitem0 (v : value) : result value :=
  match v with
  | Array a => a0 <- Np.getitem0 a ;; Ok (Array a0)
  | Object o => object_getitem0 o
  end.

(** [onp.asarray(v)] *)
Definition asarray (v : value) : result ndarray :=
  match v with
  | Array a => Ok a
  | Object o => object_asarray o
  end.

(** Raw observations and gym spaces. *)
Variable Obs : Type.
Variable Space : Type.

Local Abbreviation Env := (Gym.Env Space).

(** [onp.random.RandomState(seed)], and the two ways this class draws from
    it: [safe_sample(space, rnd)] and one standard normal variate.  Drawing
    advances the generator.  With the seed [None] numpy takes the seed from
    the operating system, anew on every call; [RandomState_seed None] is
    the generator of the one call at hand, and no property relates the
    draws of two calls made without a seed. *)
Variable RandomState : Type.
Variable RandomState_seed : option Z -> RandomState.
Variable safe_sample : Space -> RandomState -> Obs * RandomState.
Variable standard_normal : RandomState -> scalar * RandomState.

(** [n] successive draws from the generator. *)
Fixpoint draw (A : Type) (gen : RandomState -> A * RandomState) (n : nat)
    (rnd : RandomState) : list A * RandomState :=
  match n with
  | O => ([], rnd)
  | S n' =>
      let (x, rnd1) := gen rnd in
      let (xs, rnd2) := draw gen n' rnd1 in
      (x :: xs, rnd2)
  end.

(** [rnd.randn(n)]: a float64 array of shape [(n,)]. *)
Definition randn (rnd : RandomState) (n : Z) : result (ndarray * RandomState) :=
  if (n <? 0)%Z then Raise (ValueError "negative dimensions are not allowed")
  else
    let (xs, rnd') := draw standard_normal (Z.to_nat n) rnd in
    Ok ({| Np.dtype := Np.float64; Np.shape := [Z.to_nat n]; Np.data := xs |}, rnd').

(** An observation preprocessor turns one observation into a batch. *)
Definition preprocessor : Type := Obs -> result pytree.

(** [ProbaDist(space).preprocess_variate] *)
Variable ProbaDist_preprocess_variate : Gym.object Space -> result preprocessor.

(** [coax.value_transforms.ValueTransform]: a pair of functions. *)
Record ValueTransform : Type := mk_ValueTransform {
  transform_func : value -> result value;
  inverse_func : value -> result value
}.

(** What a caller may pass as [value_transform]: a [ValueTransform], or a
    tuple of functions. *)
Inductive value_transform_arg : Type :=
| IsValueTransform (t : ValueTransform)
| IsTuple (fs : list (value -> result value)).

(** [ValueTransform] applied to the unpacked tuple [fs]: the constructor
    takes exactly two arguments. *)
Definition ValueTransform_star (fs : list (value -> result value)) : result ValueTransform :=
  match fs with
  | [f; g] => Ok (mk_ValueTransform f g)
  | _ => Raise (TypeError "ValueTransform() takes exactly 2 positional arguments")
  end.

(** The base component: parameters, function state and random keys.
    Reading the [rng] property yields a key and may advance the key state
    the component keeps. *)
Variable Params : Type.
Variable FState : Type.
Variable Key : Type.
Variable KeyState : Type.
Variable PRNGKey : option Z -> KeyState.
Variable rng : KeyState -> Key * KeyState.

(** The transformed forward function:
    [function(params, state, rng, S, is_training)] returns
    [(output, new_state)]. *)
Definition forward : Type :=
  Params -> FState -> Key -> pytree -> bool -> result (value * FState).

(** A Haiku-style function [func]: the names of its declared parameters,
    [tuple(signature(func).parameters)], and what its transformation
    initialises and applies. *)
Record Func : Type := mk_Func {
  parameters : list string;
  init : Key -> pytree -> bool -> result (Params * FState);
  apply : forward
}.

(** [ArgsType2], [Inputs] and [ExampleData] of [base_func]. *)
Record ArgsType2 : Type := mk_ArgsType2 { args_S : pytree; is_training : bool }.
Record Inputs : Type := mk_Inputs { args : ArgsType2; static_argnums : list nat }.
Record ExampleData : Type := mk_ExampleData { inputs : Inputs; output : ndarray }.

(** *** Instances *)

(** The attributes that are set when the base constructor starts its
    checks. *)
Record attrs : Type := mk_attrs {
  observation_preprocessor : preprocessor;
  value_transform : ValueTransform;
  observation_space : Gym.object Space;
  random_seed : option Z
}.

(** A constructed instance. *)
Record t : Type := mk_t {
  self_attrs :> attrs;
  rng_state : KeyState;
  function : forward;
  params : Params;
  function_state : FState
}.

(** Methods read and update the instance they are called on: a method
    body maps the instance to its outcome and the instance afterwards. *)
Definition method (A : Type) : Type := t -> result A * t.

Definition mbind (A B : Type) (m : method A) (k : A -> method B) : method B :=
  fun self =>
    match m self with
    | (Ok a, self') => k a self'
    | (Raise e, self') => (Raise e, self')
    end.

(** Reading an attribute, [self.f]. *)
Definition attr (A : Type) (f : t -> A) : method A :=
  fun self => (Ok (f self), self).

(** A call that does not involve the instance. *)
Definition call (A : Type) (r : result A) : method A :=
  fun self => (r, self).

(** Reading the property [self.rng]. *)
Definition attr_rng : method Key :=
  fun self =>
    let (key, ks) := rng (rng_state self) in
    (Ok key,
     {| self_attrs := self_attrs self; rng_state := ks; function := function self;
        params := params self; function_state := function_state self |}).

Notation "x <~ m ;; k" := (mbind m (fun x => k))
  (at level 100, m at next level, right associativity).
Notation "' p <~ m ;; k" := (mbind m (fun p => k))
  (at level 100, p pattern, m at next level, right associativity).

(** *** [V.__call__] *)

Definition __call__ (s : Obs) : method ndarray :=
  pre <~ attr observation_preprocessor ;;
  S <~ call (pre s) ;;
  f <~ attr function ;;
  p <~ attr params ;;
  st <~ attr function_state ;;
  key <~ attr_rng ;;
  '(V, _) <~ call (f p st key S false) ;;
  vt <~ attr value_transform ;;
  V <~ call (inverse_func vt V) ;;
  V0 <~ call (getitem0 V) ;;
  call (asarray V0).

(** The default of lines 99-100 and 143-144: a preprocessor that is [None]
    is replaced by [ProbaDist(env.observation_space).preprocess_variate]. *)
Definition default_preprocessor (space : Gym.object Space)
    (observation_preprocessor : option preprocessor) : result preprocessor :=
  match observation_preprocessor with
  | None => ProbaDist_preprocess_variate space
  | Some p => Ok p
  end.

(** *** [V.example_data] *)

Definition space_type_error (type_name : string) : exn :=
  TypeError ("env.observation_space must be derived from gym.Space, got: "
             ++ Gym.type_repr type_name).

Definition example_data (env : Env) (observation_preprocessor : option preprocessor)
    (batch_size : Z) (random_seed : option Z) : result ExampleData :=
  match Gym.observation_space env with
  | Gym.Other type_name => Raise (space_type_error type_name)
  | Gym.IsSpace sp =>
      pre <- default_preprocessor (Gym.observation_space env)
                                  observation_preprocessor ;;
      let rnd := RandomState_seed random_seed in
      let (samples, rnd1) := draw (safe_sample sp) (Z.to_nat batch_size) rnd in
      S <- comprehension pre samples ;;
      S <- Np.tree_multimap TreeDef_eq_dec (Np.concatenate promote_types) S ;;
      '(out, _) <- randn rnd1 batch_size ;;
      Ok {| inputs := {| args := {| args_S := S; is_training := true |};
                         static_argnums := [1] |};
            output := Np.jnp_asarray jax_enable_x64 out |}
  end.

(** *** [V._check_signature] *)

Definition signature_error (params : list string) : exn :=
  TypeError ("func has bad signature; expected: func(S, is_training), got: func("
             ++ Fmt.join ", " params ++ ")").

Definition _check_signature (self : attrs) (func : Func) : result ExampleData :=
  if list_eq_dec string_dec (parameters func) ["S"; "is_training"] then
    example_data (Gym.mk_Env (observation_space self))
                 (Some (observation_preprocessor self)) 1 (random_seed self)
  else Raise (signature_error (parameters func)).

(** *** [V._check_output] *)

Definition return_type_error (cls : string) : exn :=
  TypeError ("func has bad return type; expected jnp.ndarray, got " ++ cls).

Definition return_dtype_error (d : Np.DType) : exn :=
  TypeError ("func has bad return dtype; expected a subdtype of jnp.floating, "
             ++ "got dtype=" ++ Np.dtype_name d).

Definition return_shape_error (expected actual : list nat) : exn :=
  TypeError ("func has bad return shape, expected: " ++ Fmt.repr_tuple expected
             ++ ", got: " ++ Fmt.repr_tuple actual).

Definition _check_output (actual : value) (expected : ndarray) : result unit :=
  match actual with
  | Object o => Raise (return_type_error (class_name o))
  | Array a =>
      if negb (Np.is_floating (Np.dtype a)) then
        Raise (return_dtype_error (Np.dtype a))
      else if negb (Np.shape_eqb (Np.shape a) (Np.shape expected)) then
        Raise (return_shape_error (Np.shape expected) (Np.shape a))
      else Ok tt
  end.

(** *** Construction *)

(** Modelled from the spec: the constructor of the base component
    [BaseFunc] (coax/_core/base_func.py), which is not part of the sources at
    hand.  It keeps the observation space and the seed, checks the signature
    of [func] and synthesises one example batch ([_check_signature]),
    initialises parameters and function state, performs a trial forward call
    on the example batch and validates its output ([_check_output]). *)
Definition BaseFunc_init (observation_preprocessor : preprocessor)
    (value_transform : ValueTransform) (func : Func)
    (observation_space : Gym.object Space) (random_seed : option Z) : result t :=
  let self := mk_attrs observation_preprocessor value_transform
                       observation_space random_seed in
  example <- _check_signature self func ;;
  let S := args_S (args (inputs example)) in
  let training := is_training (args (inputs example)) in
  let (key1, ks1) := rng (PRNGKey random_seed) in
  '(p, st) <- init func key1 S training ;;
  let (key2, ks2) := rng ks1 in
  '(out, _) <- apply func p st key2 S training ;;
  _ <- _check_output out (output example) ;;
  Ok {| self_attrs := self; rng_state := ks2; function := apply func;
        params := p; function_state := st |}.

(** The identity pair, [ValueTransform(lambda x: x, lambda x: x)]. *)
Definition identity_transform : ValueTransform :=
  mk_ValueTransform (fun x => Ok x) (fun x => Ok x).

(** The defaults of lines 101-104: [None] becomes the identity pair, a
    [ValueTransform] is kept, anything else is unpacked into the constructor
    of [ValueTransform]. *)
Definition default_value_transform (value_transform : option value_transform_arg)
    : result ValueTransform :=
  match value_transform with
  | None => Ok identity_transform
  | Some (IsValueTransform vt) => Ok vt
  | Some (IsTuple fs) => ValueTransform_star fs
  end.

(** [V.__init__]; the base constructor is called with [action_space=None],
    which plays no role here. *)
Definition __init__ (func : Func) (env : Env)
    (observation_preprocessor : option preprocessor)
    (value_transform : option value_transform_arg)
    (random_seed : option Z) : result t :=
  pre <- default_preprocessor (Gym.observation_space env) observation_preprocessor ;;
  vt <- default_value_transform value_transform ;;
  BaseFunc_init pre vt func (Gym.observation_space env) random_seed.

(** *** Notions used to state the properties *)

(** An output passes [_check_output] when it is an array of a floating
    element type and of the expected shape. *)
Definition valid_output (actual : value) (expected : ndarray) : Prop :=
  exists a, actual = Array a
            /\ Np.is_floating (Np.dtype a) = true
            /\ Np.shape a = Np.shape expected.

(** The error of [_check_output] and the property it reports: the type,
    else the element type, else the shape. *)
Inductive output_violation (actual : value) (expected : ndarray) : exn -> Prop :=
| bad_type (o : PyObject) :
    actual = Object o ->
    output_violation actual expected (return_type_error (class_name o))
| bad_dtype (a : ndarray) :
    actual = Array a ->
    Np.is_floating (Np.dtype a) = false ->
    output_violation actual expected (return_dtype_error (Np.dtype a))
| bad_shape (a : ndarray) :
    actual = Array a ->
    Np.is_floating (Np.dtype a) = true ->
    Np.shape a <> Np.shape expected ->
    output_violation actual expected
                     (return_shape_error (Np.shape expected) (Np.shape a)).

(** The instance after the property [rng] has been read once. *)
Definition after_rng (self : t) : t :=
  {| self_attrs := self_attrs self; rng_state := snd (rng (rng_state self));
     function := function self; params := params self;
     function_state := function_state self |}.

(** *** Auxiliary facts: comprehensions, draws, concatenation *)

Lemma comprehension_ok_inv (A B : Type) (f : A -> result B) (xs : list A) :
  forall ys, comprehension f xs = Ok ys -> Forall2 (fun x y => f x = Ok y) xs ys.
Proof.
  induction xs as [|x xs IH]; simpl; intros ys H.
  - inversion H; constructor.
  - destruct (f x) as [y|e] eqn:Hx; simpl in H; [|discriminate].
    destruct (comprehension f xs) as [ys'|e] eqn:Hxs; simpl in H; [|discriminate].
    inversion H; subst. constructor; auto.
Qed.

Lemma comprehension_ok_intro (A B : Type) (f : A -> result B) (xs : list A) :
  forall ys, Forall2 (fun x y => f x = Ok y) xs ys -> comprehension f xs = Ok ys.
Proof.
  intros ys H; induction H as [|x y xs ys Hx _ IH]; simpl.
  - reflexivity.
  - rewrite Hx; simpl. rewrite IH; reflexivity.
Qed.

Lemma draw_length (A : Type) (gen : RandomState -> A * RandomState) (n : nat) :
  forall rnd, List.length (fst (draw gen n rnd)) = n.
Proof.
  induction n as [|n IH]; intros rnd; simpl.
  - reflexivity.
  - destruct (gen rnd) as [x rnd1]. specialize (IH rnd1).
    destruct (draw gen n rnd1) as [xs rnd2]. simpl in *. congruence.
Qed.

Lemma shape_eqb_refl (sh : list nat) : Np.shape_eqb sh sh = true.
Proof.
  unfold Np.shape_eqb. destruct (list_eq_dec Nat.eq_dec sh sh); congruence.
Qed.

Lemma shape_eqb_eq (s1 s2 : list nat) : Np.shape_eqb s1 s2 = true <-> s1 = s2.
Proof.
  unfold Np.shape_eqb. destruct (list_eq_dec Nat.eq_dec s1 s2); split; congruence.
Qed.

(** Concatenating arrays of shape [(m, ...)] along axis 0 gives an array of
    shape [(k * m, ...)], [k] being the number of arrays. *)
Lemma concatenate_batch (m : nat) (tr : list nat) (xs : list ndarray) :
  xs <> [] ->
  Forall (fun a => Np.shape a = m :: tr) xs ->
  exists r, Np.concatenate promote_types xs = Ok r
            /\ Np.shape r = (List.length xs * m) :: tr.
Proof.
  intros Hne Hall.
  assert (Hsum : forall l : list ndarray,
             Forall (fun a => Np.shape a = m :: tr) l ->
             list_sum (map (fun x => hd 0 (Np.shape x)) l) = List.length l * m).
  { intros l Hl. induction Hl as [|x l Hx _ IH]; simpl.
    - reflexivity.
    - rewrite Hx, IH. reflexivity. }
  destruct xs as [|a rest]; [congruence|].
  unfold Np.concatenate.
  assert (Hex : existsb (fun x => Nat.eqb (Np.ndim x) 0) (a :: rest) = false).
  { apply not_true_is_false. intros Hex. apply existsb_exists in Hex.
    destruct Hex as [x [Hin Hx]]. rewrite Forall_forall in Hall.
    apply Hall in Hin. unfold Np.ndim in Hx. rewrite Hin in Hx. discriminate. }
  rewrite Hex.
  assert (Hfa : forallb (fun x => Np.shape_eqb (tl (Np.shape x)) (tl (Np.shape a))) rest = true).
  { apply forallb_forall. intros x Hin. rewrite Forall_forall in Hall.
    rewrite (Hall x (or_intror Hin)), (Hall a (or_introl eq_refl)).
    apply shape_eqb_refl. }
  rewrite Hfa. eexists; split; [reflexivity|]. simpl Np.shape.
  f_equal.
  - exact (Hsum (a :: rest) Hall).
  - inversion Hall as [|? ? Ha _]; subst. rewrite Ha. reflexivity.
Qed.

(** The columns of rows that all match [ys] element by element. *)
Lemma zip_star_columns (A B : Type) (P : A -> B -> Prop) (ys : list B)
    (rows : list (list A)) :
  rows <> [] ->
  Forall (fun row => Forall2 P row ys) rows ->
  Forall2 (fun col y => List.length col = List.length rows /\ Forall (fun a => P a y) col)
          (Np.zip_star rows) ys.
Proof.
  induction rows as [|r rows IH]; intros Hne Hall; [congruence|].
  inversion Hall as [|? ? Hr Hrows]; subst.
  destruct rows as [|r' rows'].
  - simpl. clear IH Hall Hrows Hne.
    induction Hr as [|a y r ys Ha _ IHr]; simpl; constructor; auto.
  - assert (Hne' : r' :: rows' <> []) by discriminate.
    assert (Hcols := IH Hne' Hrows). clear IH Hne'.
    change (Np.zip_star (r :: r' :: rows'))
      with (map (fun p => fst p :: snd p) (combine r (Np.zip_star (r' :: rows')))).
    remember (Np.zip_star (r' :: rows')) as cols eqn:Hc. clear Hc Hall Hrows Hne.
    revert cols Hcols.
    induction Hr as [|a y r ys Ha _ IHr]; intros cols Hcols.
    + inversion Hcols; subst. constructor.
    + inversion Hcols as [|col ? cols' ? [Hlen Hcol] Hrest]; subst. simpl.
      constructor.
      * split; [simpl in *; congruence | constructor; auto].
      * apply IHr; assumption.
Qed.

(** Mapping a function that succeeds on every element. *)
Lemma comprehension_Forall2 (A B C : Type) (f : A -> result B)
    (P : A -> C -> Prop) (Q : B -> C -> Prop) (xs : list A) (zs : list C) :
  (forall x z, P x z -> exists y, f x = Ok y /\ Q y z) ->
  Forall2 P xs zs ->
  exists ys, comprehension f xs = Ok ys /\ Forall2 Q ys zs.
Proof.
  intros Hf H. induction H as [|x z xs zs Hx _ [ys [Hys HQ]]]; simpl.
  - exists []. split; [reflexivity | constructor].
  - destruct (Hf x z Hx) as [y [Hy Hq]]. rewrite Hy, Hys. simpl.
    exists (y :: ys). split; [reflexivity | constructor; auto].
Qed.

(** Concatenating, leaf by leaf, [k] pytrees of one layout whose leaves
    have leading dimension [m] gives a pytree of that layout with leading
    dimension [k * m]. *)
Lemma tree_multimap_batches (d : TreeDef) (trailing : list (list nat)) (m : nat)
    (ts : list pytree) :
  ts <> [] ->
  Forall (Np.batched_as d trailing m) ts ->
  exists t, Np.tree_multimap TreeDef_eq_dec (Np.concatenate promote_types) ts = Ok t
            /\ Np.batched_as d trailing (List.length ts * m) t.
Proof.
  intros Hne Hall. destruct ts as [|t0 rest]; [congruence|].
  inversion Hall as [|? ? [Hd0 Hl0] Hrest]; subst.
  unfold Np.tree_multimap.
  assert (Hflat : comprehension (Np.flatten_up_to TreeDef_eq_dec (Np.treedef t0)) rest
                  = Ok (map (@Np.leaves scalar TreeDef) rest)).
  { apply comprehension_ok_intro. clear Hne Hall.
    induction Hrest as [|t l [Hd _] _ IH]; simpl; constructor; auto.
    unfold Np.flatten_up_to.
    destruct (TreeDef_eq_dec (Np.treedef t) (Np.treedef t0)); congruence. }
  rewrite Hflat. cbv beta iota delta [bind].
  assert (Hrows : Forall (fun row => Forall2 (fun a tr => Np.shape a = m :: tr) row trailing)
                         (Np.leaves t0 :: map (@Np.leaves scalar TreeDef) rest)).
  { constructor; [exact Hl0|]. apply Forall_map.
    eapply Forall_impl; [|exact Hrest]. intros t [_ Ht]. exact Ht. }
  assert (Hne' : Np.leaves t0 :: map (@Np.leaves scalar TreeDef) rest <> [])
    by discriminate.
  pose proof (zip_star_columns Hne' Hrows) as Hcols.
  destruct (@comprehension_Forall2 _ _ _
              (Np.concatenate promote_types)
              (fun (col : list ndarray) (tr : list nat) =>
                 List.length col
                 = List.length (Np.leaves t0 :: map (@Np.leaves scalar TreeDef) rest)
                 /\ Forall (fun a : ndarray => Np.shape a = m :: tr) col)
              (fun (a : ndarray) (tr : list nat) =>
                 Np.shape a = (List.length (t0 :: rest) * m) :: tr)
              (Np.zip_star (Np.leaves t0 :: map (@Np.leaves scalar TreeDef) rest))
              trailing)
    as [new [Hnew Hshape]]; [ | exact Hcols | ].
  { intros col tr [Hlen Hcol].
    destruct (@concatenate_batch m tr col) as [r [Hr Hs]]; auto.
    - intros ->. simpl in Hlen. discriminate.
    - exists r. split; [exact Hr|]. rewrite Hs, Hlen. simpl. rewrite length_map.
      reflexivity. }
  rewrite Hnew. eexists; split; [reflexivity|].
  split; simpl; auto.
Qed.

Lemma comprehension_Forall (A B : Type) (f : A -> result B) (Q : B -> Prop)
    (xs : list A) :
  Forall (fun x => exists y, f x = Ok y /\ Q y) xs ->
  exists ys, comprehension f xs = Ok ys /\ Forall Q ys
             /\ List.length ys = List.length xs.
Proof.
  intros H. induction H as [|x xs [y [Hy Hq]] _ [ys [Hys [HQ Hlen]]]]; simpl.
  - exists []. repeat split; constructor.
  - rewrite Hy, Hys. simpl. exists (y :: ys).
    repeat split; [constructor; assumption | simpl; congruence].
Qed.

Lemma append_empty_r (s : string) : (s ++ "")%string = s.
Proof.
  induction s as [|c s IH]; simpl; [reflexivity | now rewrite IH].
Qed.

Lemma append_assoc (s1 s2 s3 : string) :
  ((s1 ++ s2) ++ s3)%string = (s1 ++ (s2 ++ s3))%string.
Proof.
  induction s1 as [|c s1 IH]; simpl; [reflexivity | now rewrite IH].
Qed.

Lemma occurs_in_suffix (pre s : string) : Fmt.occurs_in s (pre ++ s).
Proof.
  exists pre, "". now rewrite append_empty_r.
Qed.

Lemma occurs_in_middle (pre s post : string) : Fmt.occurs_in s (pre ++ s ++ post).
Proof.
  exists pre, post. reflexivity.
Qed.

(** *** Facts about [example_data] *)

Lemma randn_shape (rnd rnd' : RandomState) (n : Z) (out : ndarray) :
  randn rnd n = Ok (out, rnd') ->
  (0 <= n)%Z /\ Np.shape out = [Z.to_nat n] /\ List.length (Np.data out) = Z.to_nat n.
Proof.
  unfold randn. destruct (n <? 0)%Z eqn:Hn; [discriminate|].
  apply Z.ltb_ge in Hn.
  pose proof (draw_length standard_normal (Z.to_nat n) rnd) as Hlen.
  destruct (draw standard_normal (Z.to_nat n) rnd) as [xs r]. simpl in Hlen.
  intros H; inversion H; subst; simpl. auto.
Qed.

(** With a recognised space, at least one sample, and a preprocessor that
    turns every sample into a batch of one and the same layout,
    [example_data] returns, and what it returns is batched by the batch
    size. *)
Lemma example_data_ok (env : Env) (sp : Space) (pre : option preprocessor)
    (p : preprocessor) (N : Z) (seed : option Z) (d : TreeDef)
    (trailing : list (list nat)) :
  Gym.observation_space env = Gym.IsSpace sp ->
  default_preprocessor (Gym.observation_space env) pre = Ok p ->
  (1 <= N)%Z ->
  Forall (fun x => exists b, p x = Ok b /\ Np.batched_as d trailing 1 b)
         (fst (draw (safe_sample sp) (Z.to_nat N) (RandomState_seed seed))) ->
  exists ed, example_data env pre N seed = Ok ed
    /\ Np.batched_as d trailing (Z.to_nat N) (args_S (args (inputs ed)))
    /\ is_training (args (inputs ed)) = true
    /\ static_argnums (inputs ed) = [1]
    /\ Np.shape (output ed) = [Z.to_nat N].
Proof.
  intros Hsp Hpre HN Hsamples. unfold example_data. rewrite Hsp in *. rewrite Hpre.
  cbv beta iota delta [bind].
  pose proof (draw_length (safe_sample sp) (Z.to_nat N) (RandomState_seed seed)) as Hlen.
  destruct (draw (safe_sample sp) (Z.to_nat N) (RandomState_seed seed))
    as [samples rnd1]. simpl in Hlen, Hsamples.
  destruct (comprehension_Forall _ _ Hsamples) as [batches [Hb [Hall Hlb]]].
  rewrite Hb.
  assert (Hne : batches <> []).
  { intros ->. simpl in Hlb. rewrite Hlen in Hlb. lia. }
  destruct (tree_multimap_batches Hne Hall) as [t [Ht Hbt]]. rewrite Ht.
  unfold randn. destruct (N <? 0)%Z eqn:Hneg; [apply Z.ltb_lt in Hneg; lia|].
  destruct (draw standard_normal (Z.to_nat N) rnd1) as [xs rnd2].
  eexists; split; [reflexivity|]. simpl.
  rewrite Hlb, Hlen, Nat.mul_1_r in Hbt. auto.
Qed.


Lemma example_data_inv (env : Env) (pre : option preprocessor) (N : Z)
    (seed : option Z) (ed : ExampleData) :
  example_data env pre N seed = Ok ed ->
  exists sp p samples rnd1 batches S out rnd2,
    Gym.observation_space env = Gym.IsSpace sp
    /\ default_preprocessor (Gym.observation_space env) pre = Ok p
    /\ draw (safe_sample sp) (Z.to_nat N) (RandomState_seed seed) = (samples, rnd1)
    /\ List.length samples = Z.to_nat N
    /\ Forall2 (fun x b => p x = Ok b) samples batches
    /\ Np.tree_multimap TreeDef_eq_dec (Np.concatenate promote_types) batches = Ok S
    /\ randn rnd1 N = Ok (out, rnd2)
    /\ ed = {| inputs := {| args := {| args_S := S; is_training := true |};
                            static_argnums := [1] |};
               output := Np.jnp_asarray jax_enable_x64 out |}.
Proof.
  unfold example_data.
  destruct (Gym.observation_space env) as [sp|ty] eqn:Hsp; [|discriminate].
  destruct (default_preprocessor (Gym.IsSpace sp) pre) as [p|e] eqn:Hp;
    [|discriminate].
  cbv beta iota delta [bind].
  pose proof (draw_length (safe_sample sp) (Z.to_nat N) (RandomState_seed seed))
    as Hlen.
  destruct (draw (safe_sample sp) (Z.to_nat N) (RandomState_seed seed))
    as [samples rnd1] eqn:Hd. simpl in Hlen.
  destruct (comprehension p samples) as [batches|e] eqn:Hb; [|discriminate].
  destruct (Np.tree_multimap TreeDef_eq_dec (Np.concatenate promote_types) batches)
    as [S|e] eqn:HS; [|discriminate].
  destruct (randn rnd1 N) as [[out rnd2]|e] eqn:Hr; [|discriminate].
  intros H; inversion H; subst.
  exists sp, p, samples, rnd1, batches, S, out, rnd2.
  repeat split; auto using comprehension_ok_inv.
Qed.



(** C6, amended.  Whatever the other arguments, [example_data] raises its
    type error, which names the type found, when the observation space is
    not a gym space.  For a batch size of at least 1 and a preprocessor
    that turns every sample into a batch of one layout, a type error is
    raised if and only if the observation space is not a gym space. *)
Theorem example_data_space_guard :
  (forall (env : Env) (pre : option preprocessor) (N : Z) (seed : option Z)
          (type_name : string),
      Gym.observation_space env = Gym.Other type_name ->
      example_data env pre N seed = Raise (space_type_error type_name)
      /\ is_type_error (example_data env pre N seed) = true
      /\ Fmt.occurs_in (Gym.type_repr type_name) (message (space_type_error type_name)))
  /\ (forall (env : Env) (pre : option preprocessor) (p : preprocessor) (N : Z)
             (seed : option Z) (d : TreeDef) (trailing : list (list nat)),
      (1 <= N)%Z ->
      (forall sp, Gym.observation_space env = Gym.IsSpace sp ->
                  default_preprocessor (Gym.observation_space env) pre = Ok p
                  /\ Forall (fun x => exists b, p x = Ok b /\ Np.batched_as d trailing 1 b)
                            (fst (draw (safe_sample sp) (Z.to_nat N)
                                       (RandomState_seed seed)))) ->
      (is_type_error (example_data env pre N seed) = true
       <-> Gym.isinstance_Space (Gym.observation_space env) = false)).
Proof.
  split.
  - intros env pre N seed ty Hty.
    assert (H : example_data env pre N seed = Raise (space_type_error ty)).
    { unfold example_data. rewrite Hty. reflexivity. }
    rewrite H. repeat split. apply occurs_in_suffix.
  - intros env pre p N seed d trailing HN Hrec.
    destruct (Gym.observation_space env) as [sp|ty] eqn:Hsp.
    + destruct (Hrec sp eq_refl) as [Hp Hall].
      assert (Hsp' : Gym.observation_space env = Gym.IsSpace sp) by exact Hsp.
      rewrite <- Hsp' in Hp.
      destruct (example_data_ok env pre seed Hsp' Hp HN Hall) as [ed [Hed _]].
      rewrite Hed. simpl. split; discriminate.
    + unfold example_data. rewrite Hsp. simpl. split; reflexivity.
Qed.

(** *** Facts about the validation hooks and the constructor *)

Lemma check_signature_ok (self : attrs) (func : Func) :
  parameters func = ["S"; "is_training"] ->
  _check_signature self func
  = example_data (Gym.mk_Env (observation_space self))
                 (Some (observation_preprocessor self)) 1 (random_seed self).
Proof.
  intros H. unfold _check_signature.
  destruct (list_eq_dec string_dec (parameters func) ["S"; "is_training"]);
    [reflexivity | contradiction].
Qed.

Lemma check_signature_bad (self : attrs) (func : Func) :
  parameters func <> ["S"; "is_training"] ->
  _check_signature self func = Raise (signature_error (parameters func)).
Proof.
  intros H. unfold _check_signature.
  destruct (list_eq_dec string_dec (parameters func) ["S"; "is_training"]);
    [contradiction | reflexivity].
Qed.

(** The example that [_check_signature] hands to the base constructor is a
    batch of one in training mode. *)
Lemma check_signature_example (self : attrs) (func : Func) (example : ExampleData) :
  _check_signature self func = Ok example ->
  parameters func = ["S"; "is_training"]
  /\ is_training (args (inputs example)) = true
  /\ static_argnums (inputs example) = [1]
  /\ Np.shape (output example) = [1].
Proof.
  intros H.
  destruct (list_eq_dec string_dec (parameters func) ["S"; "is_training"]) as [Heq|Hne].
  - rewrite check_signature_ok in H by assumption.
    apply example_data_inv in H.
    destruct H as (sp & p & samples & rnd1 & batches & S & out & rnd2
                   & _ & _ & _ & _ & _ & _ & Hr & ->).
    apply randn_shape in Hr. destruct Hr as (_ & Hs & _).
    simpl. rewrite Hs. auto.
  - rewrite check_signature_bad in H by assumption. discriminate.
Qed.

Lemma check_output_ok (actual : value) (expected : ndarray) :
  valid_output actual expected -> _check_output actual expected = Ok tt.
Proof.
  intros (a & -> & Hf & Hs). unfold _check_output.
  rewrite Hf, Hs, shape_eqb_refl. reflexivity.
Qed.

Lemma check_output_bad (actual : value) (expected : ndarray) :
  ~ valid_output actual expected ->
  exists e, _check_output actual expected = Raise e
            /\ output_violation actual expected e.
Proof.
  intros Hv. destruct actual as [a|o]; simpl.
  - destruct (Np.is_floating (Np.dtype a)) eqn:Hf; simpl.
    + destruct (Np.shape_eqb (Np.shape a) (Np.shape expected)) eqn:Hs; simpl.
      * exfalso. apply Hv. exists a. apply shape_eqb_eq in Hs. auto.
      * eexists; split; [reflexivity|]. eapply bad_shape; eauto.
        intros Heq. apply shape_eqb_eq in Heq. congruence.
    + eexists; split; [reflexivity|]. eapply bad_dtype; eauto.
  - eexists; split; [reflexivity|]. eapply bad_type; eauto.
Qed.

(** The base constructor, once the signature check has produced the
    example, parameters are initialised and the trial call has returned,
    ends with [_check_output]. *)
Lemma BaseFunc_init_trial (p : preprocessor) (vt : ValueTransform) (func : Func)
    (space : Gym.object Space) (seed : option Z) (example : ExampleData)
    (pp : Params) (st st' : FState) (out : value) :
  _check_signature (mk_attrs p vt space seed) func = Ok example ->
  init func (fst (rng (PRNGKey seed))) (args_S (args (inputs example)))
       (is_training (args (inputs example))) = Ok (pp, st) ->
  apply func pp st (fst (rng (snd (rng (PRNGKey seed)))))
        (args_S (args (inputs example))) (is_training (args (inputs example)))
  = Ok (out, st') ->
  BaseFunc_init p vt func space seed
  = (_ <- _check_output out (output example) ;;
     Ok {| self_attrs := mk_attrs p vt space seed;
           rng_state := snd (rng (snd (rng (PRNGKey seed))));
           function := apply func; params := pp; function_state := st |}).
Proof.
  intros Hsig Hinit Happly. unfold BaseFunc_init. rewrite Hsig.
  cbv beta iota delta [bind].
  destruct (rng (PRNGKey seed)) as [key1 ks1]. simpl in Hinit, Happly.
  rewrite Hinit. cbn [snd]. destruct (rng ks1) as [key2 ks2].
  simpl in Happly. rewrite Happly. simpl. reflexivity.
Qed.

(** A constructed instance carries the attributes the base constructor was
    given, and its forward function is the transformed [func]. *)
Lemma BaseFunc_init_attrs (p : preprocessor) (vt : ValueTransform) (func : Func)
    (space : Gym.object Space) (seed : option Z) (self : t) :
  BaseFunc_init p vt func space seed = Ok self ->
  self_attrs self = mk_attrs p vt space seed /\ function self = apply func.
Proof.
  unfold BaseFunc_init.
  destruct (_check_signature (mk_attrs p vt space seed) func) as [example|e];
    [|discriminate].
  cbv beta iota delta [bind].
  destruct (rng (PRNGKey seed)) as [key1 ks1].
  destruct (init func key1 _ _) as [[pp st]|e]; [|discriminate].
  destruct (rng ks1) as [key2 ks2].
  destruct (apply func pp st key2 _ _) as [[out st']|e]; [|discriminate].
  destruct (_check_output out (output example)) as [[]|e]; [|discriminate].
  intros H; inversion H; subst; simpl. auto.
Qed.

Lemma init_unfold (func : Func) (env : Env) (pre : option preprocessor)
    (vt : option value_transform_arg) (seed : option Z) (p : preprocessor)
    (tr : ValueTransform) :
  default_preprocessor (Gym.observation_space env) pre = Ok p ->
  default_value_transform vt = Ok tr ->
  __init__ func env pre vt seed
  = BaseFunc_init p tr func (Gym.observation_space env) seed.
Proof.
  intros Hp Ht. unfold __init__. rewrite Hp, Ht. reflexivity.
Qed.

(** C2.  [_check_signature] raises the signature error, whose message lists
    the actual parameters, whenever the declared parameters of [func] are
    not exactly [S, is_training] in this order, and construction then fails
    with that error; when they are, the check passes and goes on to
    synthesise the example batch. *)
Theorem check_signature_spec (self : attrs) (func : Func) :
  (parameters func <> ["S"; "is_training"] ->
     _check_signature self func = Raise (signature_error (parameters func))
     /\ Fmt.occurs_in (Fmt.join ", " (parameters func))
                      (message (signature_error (parameters func)))
     /\ forall (env : Env) (pre : option preprocessor)
               (vt : option value_transform_arg) (seed : option Z)
               (p : preprocessor) (tr : ValueTransform),
          default_preprocessor (Gym.observation_space env) pre = Ok p ->
          default_value_transform vt = Ok tr ->
          __init__ func env pre vt seed = Raise (signature_error (parameters func)))
  /\ (parameters func = ["S"; "is_training"] ->
      _check_signature self func
      = example_data (Gym.mk_Env (observation_space self))
                     (Some (observation_preprocessor self)) 1 (random_seed self)).
Proof.
  split.
  - intros Hne. split; [|split].
    + apply check_signature_bad; exact Hne.
    + unfold signature_error, message. apply occurs_in_middle.
    + intros env pre vt seed p tr Hp Ht.
      rewrite (init_unfold func env pre vt seed Hp Ht).
      unfold BaseFunc_init. rewrite check_signature_bad by exact Hne.
      reflexivity.
  - apply check_signature_ok.
Qed.

(** C3.  [_check_output] accepts exactly the arrays of a floating element
    type and of the expected shape.  For any other output it raises a type
    error that reports the first property violated, in the order type,
    element type, shape, and whose message holds the actual and the
    expected value of that property.  In the constructor the expected shape
    is [(1,)], and construction fails with that error when the output of
    the trial call is not valid. *)
Theorem check_output_spec :
  (forall (actual : value) (expected : ndarray),
      valid_output actual expected -> _check_output actual expected = Ok tt)
  /\ (forall (actual : value) (expected : ndarray),
      ~ valid_output actual expected ->
      exists e, _check_output actual expected = Raise e
                /\ output_violation actual expected e
                /\ is_type_error (@Raise unit e) = true)
  /\ (forall cls : string,
      Fmt.occurs_in cls (message (return_type_error cls))
      /\ Fmt.occurs_in "jnp.ndarray" (message (return_type_error cls)))
  /\ (forall d : Np.DType,
      Fmt.occurs_in (Np.dtype_name d) (message (return_dtype_error d))
      /\ Fmt.occurs_in "jnp.floating" (message (return_dtype_error d)))
  /\ (forall expected actual : list nat,
      Fmt.occurs_in (Fmt.repr_tuple actual) (message (return_shape_error expected actual))
      /\ Fmt.occurs_in (Fmt.repr_tuple expected)
                       (message (return_shape_error expected actual)))
  /\ (forall (func : Func) (env : Env) (pre : option preprocessor)
             (vt : option value_transform_arg) (seed : option Z)
             (p : preprocessor) (tr : ValueTransform) (example : ExampleData)
             (pp : Params) (st st' : FState) (out : value),
      default_preprocessor (Gym.observation_space env) pre = Ok p ->
      default_value_transform vt = Ok tr ->
      _check_signature (mk_attrs p tr (Gym.observation_space env) seed) func
      = Ok example ->
      init func (fst (rng (PRNGKey seed))) (args_S (args (inputs example)))
           (is_training (args (inputs example))) = Ok (pp, st) ->
      apply func pp st (fst (rng (snd (rng (PRNGKey seed)))))
            (args_S (args (inputs example))) (is_training (args (inputs example)))
      = Ok (out, st') ->
      Np.shape (output example) = [1]
      /\ (~ valid_output out (output example) ->
          exists e, __init__ func env pre vt seed = Raise e
                    /\ output_violation out (output example) e)
      /\ (valid_output out (output example) ->
          is_ok (__init__ func env pre vt seed) = true)).
Proof.
  split; [exact check_output_ok|].
  split.
  { intros actual expected Hv.
    destruct (check_output_bad Hv) as [e [He Hviol]].
    exists e. repeat split; auto. destruct Hviol; reflexivity. }
  split.
  { intros cls. split.
    - apply occurs_in_suffix.
    - exists "func has bad return type; expected ", (", got " ++ cls).
      reflexivity. }
  split.
  { intros d. split.
    - unfold return_dtype_error, message. rewrite <- append_assoc.
      apply occurs_in_suffix.
    - exists "func has bad return dtype; expected a subdtype of ",
        (", got dtype=" ++ Np.dtype_name d). reflexivity. }
  split.
  { intros expected actual. split.
    - unfold return_shape_error, message.
      rewrite <- (append_assoc (Fmt.repr_tuple expected)), <- append_assoc.
      apply occurs_in_suffix.
    - apply occurs_in_middle. }
  intros func env pre vt seed p tr example pp st st' out Hp Ht Hsig Hinit Happly.
  split; [apply (check_signature_example _ _ Hsig)|].
  rewrite (init_unfold func env pre vt seed Hp Ht).
  rewrite (BaseFunc_init_trial _ _ _ _ _ Hsig Hinit Happly).
  split.
  - intros Hv. destruct (check_output_bad Hv) as [e [He Hviol]].
    exists e. rewrite He. split; [reflexivity | exact Hviol].
  - intros Hv. rewrite (check_output_ok Hv). reflexivity.
Qed.

(** The attributes of a constructed instance are the defaults of the
    arguments it was constructed with. *)
Lemma init_constructed_attrs (func : Func) (env : Env) (pre : option preprocessor)
    (vt : option value_transform_arg) (seed : option Z) (self : t) :
  __init__ func env pre vt seed = Ok self ->
  (pre = None ->
     ProbaDist_preprocess_variate (Gym.observation_space env)
     = Ok (observation_preprocessor self))
  /\ (forall p, pre = Some p -> observation_preprocessor self = p)
  /\ (vt = None ->
      value_transform self = identity_transform
      /\ forall x, transform_func (value_transform self) x = Ok x
                   /\ inverse_func (value_transform self) x = Ok x)
  /\ (forall tr, vt = Some (IsValueTransform tr) -> value_transform self = tr)
  /\ (forall fs, vt = Some (IsTuple fs) ->
      exists f g, fs = [f; g]
                  /\ value_transform self = mk_ValueTransform f g
                  /\ transform_func (value_transform self) = f
                  /\ inverse_func (value_transform self) = g).
Proof.
  unfold __init__. intros H.
  destruct (default_preprocessor (Gym.observation_space env) pre) as [p|e] eqn:Hp;
    [|discriminate].
  destruct (default_value_transform vt) as [tr|e] eqn:Ht; [|discriminate].
  cbv beta iota delta [bind] in H.
  apply BaseFunc_init_attrs in H. destruct H as [Hattrs _].
  assert (Hpre : observation_preprocessor self = p) by (rewrite Hattrs; reflexivity).
  assert (Hvt : value_transform self = tr) by (rewrite Hattrs; reflexivity).
  rewrite Hpre, Hvt. clear Hattrs Hpre Hvt.
  repeat split.
  - intros ->. exact Hp.
  - intros p' ->. simpl in Hp. congruence.
  - subst vt. simpl in Ht. congruence.
  - subst vt. simpl in Ht. inversion Ht; subst. reflexivity.
  - subst vt. simpl in Ht. inversion Ht; subst. reflexivity.
  - intros tr' ->. simpl in Ht. congruence.
  - intros fs ->. simpl in Ht. unfold ValueTransform_star in Ht.
    destruct fs as [|f [|g [|h fs]]]; try discriminate.
    inversion Ht; subst. exists f, g. auto.
Qed.

(** C7.  The defaults of the constructor: a preprocessor that is not given
    is the one derived from the observation space with
    [ProbaDist(...).preprocess_variate]; a value transform that is not given
    is the identity pair, both of whose functions return their argument; a
    [ValueTransform] is kept; a tuple of two functions is accepted and made
    into the pair with the first as [transform_func] and the second as
    [inverse_func].  The base constructor is run on these defaults, and a
    constructed instance carries them as its attributes. *)
Theorem init_defaults (func : Func) (env : Env) (pre : option preprocessor)
    (vt : option value_transform_arg) (seed : option Z) :
  (forall f g : value -> result value,
      default_value_transform (Some (IsTuple [f; g])) = Ok (mk_ValueTransform f g)
      /\ forall p,
           default_preprocessor (Gym.observation_space env) pre = Ok p ->
           __init__ func env pre (Some (IsTuple [f; g])) seed
           = BaseFunc_init p (mk_ValueTransform f g) func
                           (Gym.observation_space env) seed)
  /\ default_value_transform None = Ok identity_transform
  /\ (forall x, transform_func identity_transform x = Ok x
                /\ inverse_func identity_transform x = Ok x)
  /\ (forall tr, default_value_transform (Some (IsValueTransform tr)) = Ok tr)
  /\ default_preprocessor (Gym.observation_space env) None
     = ProbaDist_preprocess_variate (Gym.observation_space env)
  /\ (forall p, default_preprocessor (Gym.observation_space env) (Some p) = Ok p)
  /\ (forall p tr,
         default_preprocessor (Gym.observation_space env) pre = Ok p ->
         default_value_transform vt = Ok tr ->
         __init__ func env pre vt seed
         = BaseFunc_init p tr func (Gym.observation_space env) seed)
  /\ (forall self : t,
         __init__ func env pre vt seed = Ok self ->
         default_preprocessor (Gym.observation_space env) pre
         = Ok (observation_preprocessor self)
         /\ default_value_transform vt = Ok (value_transform self)
         /\ (pre = None ->
             ProbaDist_preprocess_variate (Gym.observation_space env)
             = Ok (observation_preprocessor self))
         /\ (forall p, pre = Some p -> observation_preprocessor self = p)
         /\ (vt = None -> value_transform self = identity_transform)
         /\ (forall tr, vt = Some (IsValueTransform tr) -> value_transform self = tr)
         /\ (forall f g, vt = Some (IsTuple [f; g]) ->
                         value_transform self = mk_ValueTransform f g
                         /\ transform_func (value_transform self) = f
                         /\ inverse_func (value_transform self) = g)
         /\ (forall fs, vt = Some (IsTuple fs) -> List.length fs = 2)).
Proof.
  split.
  { intros f g. split; [reflexivity|].
    intros p Hp. apply init_unfold; [exact Hp | reflexivity]. }
  split; [reflexivity|].
  split; [intros x; split; reflexivity|].
  split; [reflexivity|].
  split; [reflexivity|].
  split; [reflexivity|].
  split; [intros p tr; apply init_unfold|].
  intros self H.
  destruct (init_constructed_attrs _ _ _ _ _ H) as (Hnone & Hsome & Hid & Hkeep & Htuple).
  assert (Hp : default_preprocessor (Gym.observation_space env) pre
               = Ok (observation_preprocessor self)).
  { destruct pre as [p|]; simpl; [rewrite (Hsome p eq_refl); reflexivity | auto]. }
  assert (Ht : default_value_transform vt = Ok (value_transform self)).
  { destruct vt as [[tr|fs]|]; simpl.
    - rewrite (Hkeep tr eq_refl). reflexivity.
    - destruct (Htuple fs eq_refl) as (f & g & -> & -> & _). reflexivity.
    - rewrite (proj1 (Hid eq_refl)). reflexivity. }
  split; [exact Hp|]. split; [exact Ht|]. split; [exact Hnone|].
  split; [exact Hsome|].
  split; [intros Hv; exact (proj1 (Hid Hv))|]. split; [exact Hkeep|].
  split.
  - intros f g Hv.
    destruct (Htuple [f; g] Hv) as (f' & g' & Heq & Hvt & Hf & Hg).
    inversion Heq; subst. auto.
  - intros fs Hfs. destruct (Htuple fs Hfs) as (f & g & -> & _). reflexivity.
Qed.

(** *** Facts about [__call__] *)

Lemma call_unfold (s : Obs) (self : t) :
  __call__ s self
  = match observation_preprocessor self s with
    | Raise e => (Raise e, self)
    | Ok batch =>
        ('(V, _) <- function self (params self) (function_state self)
                             (fst (rng (rng_state self))) batch false ;;
         V' <- inverse_func (value_transform self) V ;;
         V0 <- getitem0 V' ;;
         asarray V0,
         after_rng self)
    end.
Proof.
  unfold __call__, mbind, attr, call, attr_rng, after_rng.
  destruct (observation_preprocessor self s) as [batch|e]; [|reflexivity].
  destruct (rng (rng_state self)) as [key ks]. simpl.
  destruct (function self (params self) (function_state self) key batch false)
    as [[V st']|e]; [|reflexivity]. simpl.
  destruct (inverse_func (value_transform self) V) as [V'|e]; [|reflexivity]. simpl.
  destruct (getitem0 V') as [V0|e]; reflexivity.
Qed.

(** The outcome of a call is determined by the attributes it reads and by
    the key that [rng] yields. *)
Lemma call_outcome_congruence (s : Obs) (self1 self2 : t) :
  observation_preprocessor self1 = observation_preprocessor self2 ->
  value_transform self1 = value_transform self2 ->
  function self1 = function self2 ->
  params self1 = params self2 ->
  function_state self1 = function_state self2 ->
  fst (rng (rng_state self1)) = fst (rng (rng_state self2)) ->
  fst (__call__ s self1) = fst (__call__ s self2).
Proof.
  intros Hp Hv Hf Hpar Hst Hk. rewrite !call_unfold.
  rewrite Hp, Hv, Hf, Hpar, Hst, Hk.
  destruct (observation_preprocessor self2 s); reflexivity.
Qed.

Lemma call_state (s : Obs) (self : t) :
  snd (__call__ s self) = self \/ snd (__call__ s self) = after_rng self.
Proof.
  rewrite call_unfold.
  destruct (observation_preprocessor self s); [right | left]; reflexivity.
Qed.

(** C1.  A call on [s] returns [r] exactly when the preprocessor turns [s]
    into a batch [S], the forward function, called on the stored parameters
    and function state, the key read from [rng], [S] and
    [is_training = False], returns a raw output, the inverse function of the
    value transform maps this output to [V'], and [r] is [V'[0]] as a numpy
    array.  When [V'] is a one-dimensional array, [r] is the zero-dimensional
    array that holds its first element. *)
Theorem call_pipeline (self : t) (s : Obs) :
  (forall r : ndarray,
      fst (__call__ s self) = Ok r <->
      exists (S : pytree) (raw : value) (st' : FState) (V' V0 : value),
        observation_preprocessor self s = Ok S
        /\ function self (params self) (function_state self)
                    (fst (rng (rng_state self))) S false = Ok (raw, st')
        /\ inverse_func (value_transform self) raw = Ok V'
        /\ getitem0 V' = Ok V0
        /\ asarray V0 = Ok r)
  /\ (forall (S : pytree) (raw : value) (st' : FState) (a : ndarray) (n : nat),
      observation_preprocessor self s = Ok S ->
      function self (params self) (function_state self)
               (fst (rng (rng_state self))) S false = Ok (raw, st') ->
      inverse_func (value_transform self) raw = Ok (Array a) ->
      Np.shape a = [Datatypes.S n] ->
      fst (__call__ s self)
      = Ok {| Np.dtype := Np.dtype a; Np.shape := [];
              Np.data := firstn 1 (Np.data a) |}).
Proof.
  split.
  - intros r. rewrite call_unfold. split.
    + destruct (observation_preprocessor self s) as [batch|e]; [|discriminate].
      simpl.
      destruct (function self (params self) (function_state self)
                         (fst (rng (rng_state self))) batch false)
        as [[raw st']|e] eqn:Hf; [|discriminate]. simpl.
      destruct (inverse_func (value_transform self) raw) as [V'|e] eqn:Hi;
        [|discriminate]. simpl.
      destruct (getitem0 V') as [V0|e] eqn:Hg; [|discriminate]. simpl.
      intros Hr. exists batch, raw, st', V', V0. auto.
    + intros (batch & raw & st' & V' & V0 & Hp & Hf & Hi & Hg & Hr).
      rewrite Hp. simpl. rewrite Hf. simpl. rewrite Hi. simpl. rewrite Hg.
      simpl. exact Hr.
  - intros batch raw st' a n Hp Hf Hi Hs. rewrite call_unfold, Hp. simpl.
    rewrite Hf. simpl. rewrite Hi. simpl. unfold Np.getitem0. rewrite Hs.
    reflexivity.
Qed.

(** C8.  Once the preprocessor and the forward function have returned, a
    call returns the inverse function of the value transform applied to the
    raw output, taken at index 0; with the identity pair this is the raw
    output at index 0. *)
Theorem call_inverse_transform (self : t) (s : Obs) (S : pytree) (raw : value)
    (st' : FState) :
  observation_preprocessor self s = Ok S ->
  function self (params self) (function_state self)
           (fst (rng (rng_state self))) S false = Ok (raw, st') ->
  (forall f f_inverse,
      value_transform self = mk_ValueTransform f f_inverse ->
      fst (__call__ s self)
      = (V' <- f_inverse raw ;; V0 <- getitem0 V' ;; asarray V0))
  /\ (value_transform self = identity_transform ->
      fst (__call__ s self) = (V0 <- getitem0 raw ;; asarray V0)).
Proof.
  intros Hp Hf.
  assert (H : fst (__call__ s self)
              = (V' <- inverse_func (value_transform self) raw ;;
                 V0 <- getitem0 V' ;; asarray V0)).
  { rewrite call_unfold, Hp. simpl. rewrite Hf. reflexivity. }
  split.
  - intros f f_inverse Hvt. rewrite H, Hvt. reflexivity.
  - intros Hvt. rewrite H, Hvt. reflexivity.
Qed.

(** C9.  Two calls on the same observation return the same outcome when the
    preprocessor, the value transform, the forward function, the parameters
    and the function state are the same and [rng] yields the same key; in
    particular a second call right after the first returns what the first
    returned, when it gets the same key. *)
Theorem call_deterministic (s : Obs) :
  (forall self1 self2 : t,
      observation_preprocessor self1 = observation_preprocessor self2 ->
      value_transform self1 = value_transform self2 ->
      function self1 = function self2 ->
      params self1 = params self2 ->
      function_state self1 = function_state self2 ->
      fst (rng (rng_state self1)) = fst (rng (rng_state self2)) ->
      fst (__call__ s self1) = fst (__call__ s self2))
  /\ (forall self : t,
      fst (rng (rng_state (snd (__call__ s self)))) = fst (rng (rng_state self)) ->
      fst (__call__ s (snd (__call__ s self))) = fst (__call__ s self)).
Proof.
  split.
  - intros self1 self2. apply call_outcome_congruence.
  - intros self Hk.
    apply call_outcome_congruence; try exact Hk;
      destruct (call_state s self) as [-> | ->]; reflexivity.
Qed.


(** *** Further properties of [__call__] *)

(** X1.  A call raises [e] exactly when one of its steps raises [e] and the
    steps before it have returned: the preprocessor, the forward function,
    the inverse function of the value transform, the indexing at 0, the
    conversion to a numpy array.  No exception is caught or replaced. *)
Theorem call_raises (self : t) (s : Obs) (e : exn) :
  fst (__call__ s self) = Raise e <->
  observation_preprocessor self s = Raise e
  \/ exists S : pytree,
       observation_preprocessor self s = Ok S
       /\ (function self (params self) (function_state self)
                    (fst (rng (rng_state self))) S false = Raise e
           \/ exists (raw : value) (st' : FState),
                function self (params self) (function_state self)
                         (fst (rng (rng_state self))) S false = Ok (raw, st')
                /\ (inverse_func (value_transform self) raw = Raise e
                    \/ exists V' : value,
                         inverse_func (value_transform self) raw = Ok V'
                         /\ (getitem0 V' = Raise e
                             \/ exists V0 : value,
                                  getitem0 V' = Ok V0 /\ asarray V0 = Raise e))).
Proof.
  rewrite call_unfold.
  destruct (observation_preprocessor self s) as [batch|e0] eqn:Hp; simpl.
  - destruct (function self (params self) (function_state self)
                       (fst (rng (rng_state self))) batch false)
      as [[raw st']|e1] eqn:Hf; simpl.
    + destruct (inverse_func (value_transform self) raw) as [V'|e2] eqn:Hi; simpl.
      * destruct (getitem0 V') as [V0|e3] eqn:Hg; simpl.
        -- split.
           ++ intros H. right. exists batch. split; [reflexivity|]. right.
              exists raw, st'. split; [exact Hf|]. right.
              exists V'. split; [exact Hi|]. right.
              exists V0. split; [exact Hg | exact H].
           ++ intros H. decompose [or ex and] H; clear H; congruence.
        -- split.
           ++ intros H. right. exists batch. split; [reflexivity|]. right.
              exists raw, st'. split; [exact Hf|]. right.
              exists V'. split; [exact Hi|]. left. congruence.
           ++ intros H. decompose [or ex and] H; clear H; congruence.
      * split.
        -- intros H. right. exists batch. split; [reflexivity|]. right.
           exists raw, st'. split; [exact Hf|]. left. congruence.
        -- intros H. decompose [or ex and] H; clear H; congruence.
    + split.
      * intros H. right. exists batch. split; [reflexivity|]. left. congruence.
      * intros H. decompose [or ex and] H; clear H; congruence.
  - split.
    + intros H. left. congruence.
    + intros H. decompose [or ex and] H; clear H; congruence.
Qed.

(** X2.  A call reads the property [rng] once, after the preprocessor has
    returned: when the preprocessor raises, the instance is left as it was;
    when it returns, the key state is advanced by one reading, whether the
    later steps succeed or not; two calls in a row advance it twice. *)
Theorem call_reads_rng_once (self : t) (s : Obs) :
  (forall e, observation_preprocessor self s = Raise e ->
             __call__ s self = (Raise e, self))
  /\ (forall S : pytree, observation_preprocessor self s = Ok S ->
                         snd (__call__ s self) = after_rng self)
  /\ (forall (s2 : Obs) (S S2 : pytree),
         observation_preprocessor self s = Ok S ->
         observation_preprocessor self s2 = Ok S2 ->
         rng_state (snd (__call__ s2 (snd (__call__ s self))))
         = snd (rng (snd (rng (rng_state self))))).
Proof.
  assert (Hstep : forall (self0 : t) (s0 : Obs) (S0 : pytree),
             observation_preprocessor self0 s0 = Ok S0 ->
             snd (__call__ s0 self0) = after_rng self0).
  { intros self0 s0 S0 H0. rewrite call_unfold, H0. reflexivity. }
  split; [|split].
  - intros e He. rewrite call_unfold, He. reflexivity.
  - apply Hstep.
  - intros s2 S1 S2 H1 H2. rewrite (Hstep self s S1 H1).
    rewrite (Hstep (after_rng self) s2 S2 H2). reflexivity.
Qed.

(** X3.  What the indexing at 0 makes of the transformed output: for an array
    with a non-empty leading axis the call returns its first slice along
    axis 0, of one dimension less, which is a scalar only when the array is
    one-dimensional; for a zero-dimensional array it raises an index error;
    for an empty leading axis it raises. *)
Theorem call_first_slice (self : t) (s : Obs) (S : pytree) (raw : value)
    (st' : FState) (a : ndarray) :
  observation_preprocessor self s = Ok S ->
  function self (params self) (function_state self)
           (fst (rng (rng_state self))) S false = Ok (raw, st') ->
  inverse_func (value_transform self) raw = Ok (Array a) ->
  (forall n rest, Np.shape a = Datatypes.S n :: rest ->
      fst (__call__ s self)
      = Ok {| Np.dtype := Np.dtype a; Np.shape := rest;
              Np.data := firstn (Np.size rest) (Np.data a) |})
  /\ (Np.shape a = [] ->
      exists msg, fst (__call__ s self) = Raise (IndexError msg))
  /\ (forall rest, Np.shape a = 0 :: rest -> is_ok (fst (__call__ s self)) = false).
Proof.
  intros Hp Hf Hi.
  assert (H : fst (__call__ s self) = (a0 <- Np.getitem0 a ;; Ok a0)).
  { rewrite call_unfold, Hp. simpl. rewrite Hf. simpl. rewrite Hi. simpl.
    destruct (Np.getitem0 a); reflexivity. }
  rewrite H. unfold Np.getitem0. split; [|split].
  - intros n rest Hs. rewrite Hs. reflexivity.
  - intros Hs. rewrite Hs. eexists. reflexivity.
  - intros rest Hs. rewrite Hs. reflexivity.
Qed.

(** X4.  A call never applies the forward function of the value transform,
    and reads neither the observation space nor the seed: two instances
    with the same preprocessor, inverse function, forward pass, parameters,
    function state and key return the same outcome. *)
Theorem call_ignores_transform_func (s : Obs) (self1 self2 : t) :
  observation_preprocessor self1 = observation_preprocessor self2 ->
  inverse_func (value_transform self1) = inverse_func (value_transform self2) ->
  function self1 = function self2 ->
  params self1 = params self2 ->
  function_state self1 = function_state self2 ->
  fst (rng (rng_state self1)) = fst (rng (rng_state self2)) ->
  fst (__call__ s self1) = fst (__call__ s self2).
Proof.
  intros Hp Hi Hf Hpar Hst Hk. rewrite !call_unfold.
  rewrite Hp, Hi, Hf, Hpar, Hst, Hk.
  destruct (observation_preprocessor self2 s); reflexivity.
Qed.

(** *** Further facts about comprehensions, concatenation and pytrees *)


(** What a successful concatenation returns. *)
Lemma concatenate_inv (xs : list ndarray) (r : ndarray) :
  Np.concatenate promote_types xs = Ok r ->
  xs <> []
  /\ Np.dtype r = Np.result_type promote_types (hd r xs) (tl xs)
  /\ Np.data r = List.concat (map (@Np.data scalar) xs)
  /\ Np.shape r = list_sum (map (fun x => hd 0 (Np.shape x)) xs)
                  :: tl (Np.shape (hd r xs))
  /\ Forall (fun x => Np.ndim x <> 0
                      /\ tl (Np.shape x) = tl (Np.shape (hd r xs))) xs.
Proof.
  unfold Np.concatenate. destruct xs as [|a rest]; [discriminate|].
  destruct (existsb (fun x => Nat.eqb (Np.ndim x) 0) (a :: rest)) eqn:Hex;
    [discriminate|].
  destruct (forallb (fun x => Np.shape_eqb (tl (Np.shape x)) (tl (Np.shape a))) rest)
    eqn:Hfa; [|discriminate].
  intros H; inversion H; subst; clear H. simpl.
  repeat split; try discriminate.
  apply Forall_forall. intros x Hin. split.
  - intros Hz. assert (Hf : existsb (fun x => Nat.eqb (Np.ndim x) 0) (a :: rest) = true).
    { apply existsb_exists. exists x. split; [exact Hin|]. now apply Nat.eqb_eq. }
    congruence.
  - destruct Hin as [<- | Hin]; [reflexivity|].
    rewrite forallb_forall in Hfa. apply shape_eqb_eq. auto.
Qed.


Lemma nth_error_combine_inv (A B : Type) (l1 : list A) (l2 : list B) (j : nat)
    (x : A) (y : B) :
  nth_error (combine l1 l2) j = Some (x, y) ->
  nth_error l1 j = Some x /\ nth_error l2 j = Some y.
Proof.
  revert l2 j. induction l1 as [|a l1 IH]; intros l2 j H.
  - destruct j; discriminate.
  - destruct l2 as [|b l2]; [destruct j; discriminate|].
    destruct j as [|j]; simpl in *.
    + inversion H; subst. auto.
    + apply IH. exact H.
Qed.

(** The column [j] of [zip_star rows] holds the elements at position [j] of
    the rows, in the order of the rows. *)
Lemma zip_star_nth_error (A : Type) (rows : list (list A)) (j : nat) (col : list A) :
  rows <> [] ->
  nth_error (Np.zip_star rows) j = Some col ->
  Forall2 (fun r a => nth_error r j = Some a) rows col.
Proof.
  revert col. induction rows as [|r rows IH]; intros col Hne H; [congruence|].
  destruct rows as [|r' rows'].
  - simpl in H. rewrite nth_error_map in H.
    destruct (nth_error r j) as [x|] eqn:Hr; [|discriminate].
    inversion H; subst. repeat constructor. exact Hr.
  - change (Np.zip_star (r :: r' :: rows'))
      with (map (fun p => fst p :: snd p) (combine r (Np.zip_star (r' :: rows'))))
      in H.
    rewrite nth_error_map in H.
    destruct (nth_error (combine r (Np.zip_star (r' :: rows'))) j) as [[x c]|] eqn:Hc;
      [|discriminate].
    inversion H; subst. apply nth_error_combine_inv in Hc. destruct Hc as [Hx Hcol].
    constructor; [exact Hx|]. apply IH; [discriminate | exact Hcol].
Qed.

Lemma Forall2_nth_error_r (A B : Type) (P : A -> B -> Prop) (xs : list A)
    (ys : list B) (j : nat) (y : B) :
  Forall2 P xs ys -> nth_error ys j = Some y ->
  exists x, nth_error xs j = Some x /\ P x y.
Proof.
  intros H. revert j. induction H as [|x0 y0 xs ys Hxy _ IH]; intros j Hj.
  - destruct j; discriminate.
  - destruct j as [|j]; simpl in *.
    + inversion Hj; subst. eauto.
    + apply IH. exact Hj.
Qed.

Lemma Forall2_map_left (A B C : Type) (g : A -> B) (P : B -> C -> Prop)
    (xs : list A) (ys : list C) :
  Forall2 P (map g xs) ys -> Forall2 (fun x y => P (g x) y) xs ys.
Proof.
  revert ys. induction xs as [|x xs IH]; intros ys H; inversion H; subst;
    constructor; auto.
Qed.

(** What a successful [tree_multimap] returns: the trees share the tree
    definition of the result, whose leaves are the images of the columns of
    leaves. *)
Lemma tree_multimap_inv (f : list ndarray -> result ndarray) (ts : list pytree)
    (t : pytree) :
  Np.tree_multimap TreeDef_eq_dec f ts = Ok t ->
  ts <> []
  /\ Forall (fun b => Np.treedef b = Np.treedef t) ts
  /\ comprehension f (Np.zip_star (map (@Np.leaves scalar TreeDef) ts))
     = Ok (Np.leaves t).
Proof.
  unfold Np.tree_multimap. destruct ts as [|b0 rest]; [discriminate|].
  destruct (comprehension (Np.flatten_up_to TreeDef_eq_dec (Np.treedef b0)) rest)
    as [rest_leaves|e] eqn:Hflat; [|discriminate].
  cbv beta iota delta [bind].
  destruct (comprehension f (Np.zip_star (Np.leaves b0 :: rest_leaves)))
    as [new|e] eqn:Hnew; [|discriminate].
  intros H; inversion H; subst; clear H. simpl Np.treedef. simpl Np.leaves.
  apply comprehension_ok_inv in Hflat.
  assert (Hrest : Forall (fun b => Np.treedef b = Np.treedef b0) rest
                  /\ rest_leaves = map (@Np.leaves scalar TreeDef) rest).
  { clear Hnew. induction Hflat as [|b l rest ls Hb _ [IH1 IH2]].
    - split; [constructor | reflexivity].
    - unfold Np.flatten_up_to in Hb.
      destruct (TreeDef_eq_dec (Np.treedef b) (Np.treedef b0)); [|discriminate].
      inversion Hb; subst. split; [constructor; assumption | reflexivity]. }
  destruct Hrest as [Hdefs ->].
  split; [discriminate|]. split; [constructor; auto|]. exact Hnew.
Qed.


(** *** Further properties of [example_data] and of the validation hooks *)




Lemma check_output_depends_on_shape (actual : value) (e1 e2 : ndarray) :
  Np.shape e1 = Np.shape e2 ->
  _check_output actual e1 = _check_output actual e2.
Proof.
  intros H. unfold _check_output. rewrite H. reflexivity.
Qed.

Lemma example_data_output_shape (env : Env) (pre : option preprocessor) (N : Z)
    (seed : option Z) (ed : ExampleData) :
  example_data env pre N seed = Ok ed -> Np.shape (output ed) = [Z.to_nat N].
Proof.
  intros H. apply example_data_inv in H.
  destruct H as (sp & p & samples & rnd1 & batches & S & out & rnd2
                 & _ & _ & _ & _ & _ & _ & Hr & ->).
  apply randn_shape in Hr. destruct Hr as (_ & Hs & _). exact Hs.
Qed.

(** X8.  Against the expected output of an example of batch size [N],
    [_check_output] accepts exactly the floating arrays of shape [(N,)].
    The random values of the expected output are never compared: examples
    of the same batch size, whatever their environment, preprocessor and
    seed, give the same verdict on every output. *)
Theorem check_output_against_example (env : Env) (pre : option preprocessor)
    (N : Z) (seed : option Z) (ed : ExampleData) (actual : value) :
  example_data env pre N seed = Ok ed ->
  (_check_output actual (output ed) = Ok tt <->
   exists a, actual = Array a
             /\ Np.is_floating (Np.dtype a) = true
             /\ Np.shape a = [Z.to_nat N])
  /\ (forall env' pre' seed' ed',
         example_data env' pre' N seed' = Ok ed' ->
         _check_output actual (output ed') = _check_output actual (output ed)).
Proof.
  intros H. pose proof (example_data_output_shape _ _ _ _ H) as Hs. split.
  - split.
    + intros Hok.
      destruct actual as [a|o]; simpl in Hok; [|discriminate].
      destruct (Np.is_floating (Np.dtype a)) eqn:Hf; simpl in Hok; [|discriminate].
      destruct (Np.shape_eqb (Np.shape a) (Np.shape (output ed))) eqn:Hsh;
        simpl in Hok; [|discriminate].
      apply shape_eqb_eq in Hsh. exists a. rewrite <- Hs. auto.
    + intros (a & -> & Hf & Hsh). apply check_output_ok.
      exists a. rewrite Hs. auto.
  - intros env' pre' seed' ed' H'.
    apply check_output_depends_on_shape.
    rewrite Hs. apply (example_data_output_shape _ _ _ _ H').
Qed.

Lemma example_data_columns (env : Env) (pre : option preprocessor) (N : Z)
    (seed : option Z) (ed : ExampleData) :
  example_data env pre N seed = Ok ed ->
  exists (sp : Space) (p : preprocessor) (batches : list pytree),
    Gym.observation_space env = Gym.IsSpace sp
    /\ default_preprocessor (Gym.observation_space env) pre = Ok p
    /\ Forall2 (fun x b => p x = Ok b)
               (fst (draw (safe_sample sp) (Z.to_nat N) (RandomState_seed seed)))
               batches
    /\ Forall (fun b => Np.treedef b = Np.treedef (args_S (args (inputs ed))))
              batches
    /\ forall (j : nat) (leaf : ndarray),
         nth_error (Np.leaves (args_S (args (inputs ed)))) j = Some leaf ->
         exists col : list ndarray,
           Forall2 (fun b a => nth_error (Np.leaves b) j = Some a) batches col
           /\ Np.data leaf = List.concat (map (@Np.data scalar) col)
           /\ hd_error (Np.shape leaf)
              = Some (list_sum (map (fun a => hd 0 (Np.shape a)) col)).
Proof.
  intros H. apply example_data_inv in H.
  destruct H as (sp & p & samples & rnd1 & batches & S & out & rnd2
                 & Hsp & Hp & Hd & _ & Hb & HS & _ & ->).
  exists sp, p, batches. rewrite Hd. simpl.
  apply tree_multimap_inv in HS. destruct HS as (Hne & Hdefs & Hleaves).
  repeat split; try assumption.
  intros j leaf Hj. apply comprehension_ok_inv in Hleaves.
  destruct (Forall2_nth_error_r j Hleaves Hj) as (col & Hcol & Hcat).
  exists col. split.
  - apply (@Forall2_map_left _ _ _ (@Np.leaves scalar TreeDef)
                               (fun r a => nth_error r j = Some a)).
    apply zip_star_nth_error; [|exact Hcol].
    destruct batches; [congruence | discriminate].
  - apply concatenate_inv in Hcat. destruct Hcat as (_ & _ & Hdata & Hshape & _).
    rewrite Hshape. auto.
Qed.

(** X9.  The batch that [example_data] returns holds the preprocessed
    samples, as many as the batch size, in the order they were drawn: all
    of them have the tree definition of the batch, and every leaf of the
    batch is made of the leaves at its position in the samples, its elements
    being theirs one after the other and its leading dimension the sum of
    theirs. *)
Theorem example_data_rows (env : Env) (pre : option preprocessor) (N : Z)
    (seed : option Z) (ed : ExampleData) :
  example_data env pre N seed = Ok ed ->
  exists (sp : Space) (p : preprocessor) (batches : list pytree),
    Gym.observation_space env = Gym.IsSpace sp
    /\ default_preprocessor (Gym.observation_space env) pre = Ok p
    /\ Z.of_nat (List.length batches) = N
    /\ Forall2 (fun x b => p x = Ok b)
               (fst (draw (safe_sample sp) (Z.to_nat N) (RandomState_seed seed)))
               batches
    /\ Forall (fun b => Np.treedef b = Np.treedef (args_S (args (inputs ed))))
              batches
    /\ forall (j : nat) (leaf : ndarray),
         nth_error (Np.leaves (args_S (args (inputs ed)))) j = Some leaf ->
         exists col : list ndarray,
           Forall2 (fun b a => nth_error (Np.leaves b) j = Some a) batches col
           /\ Np.data leaf = List.concat (map (@Np.data scalar) col)
           /\ hd_error (Np.shape leaf)
              = Some (list_sum (map (fun a => hd 0 (Np.shape a)) col)).
Proof.
  intros H.
  destruct (example_data_columns _ _ _ _ H)
    as (sp & p & batches & Hsp & Hp & Hb & Hdef & Hcols).
  exists sp, p, batches. repeat split; try assumption.
  pose proof (Forall2_length Hb) as Hlen. rewrite draw_length in Hlen.
  apply example_data_inv in H.
  destruct H as (sp' & p' & samples & rnd1 & bs & S & out & rnd2
                 & _ & _ & _ & _ & _ & _ & Hr & _).
  apply randn_shape in Hr. lia.
Qed.

Lemma draw_app (A : Type) (gen : RandomState -> A * RandomState) (n m : nat) :
  forall rnd,
    fst (draw gen (n + m) rnd)
    = (fst (draw gen n rnd) ++ fst (draw gen m (snd (draw gen n rnd))))%list.
Proof.
  induction n as [|n IH]; intros rnd; simpl.
  - reflexivity.
  - destruct (gen rnd) as [x rnd1]. specialize (IH rnd1).
    destruct (draw gen (n + m) rnd1) as [xs rnd2].
    destruct (draw gen n rnd1) as [ys rnd3]. simpl in *.
    rewrite IH. reflexivity.
Qed.

Lemma Forall2_functional (A B : Type) (P : A -> B -> Prop) (xs : list A) :
  (forall x y y', P x y -> P x y' -> y = y') ->
  forall ys ys', Forall2 P xs ys -> Forall2 P xs ys' -> ys = ys'.
Proof.
  intros Hfun ys ys' H. revert ys'.
  induction H as [|x y xs ys Hxy _ IH]; intros ys' H'; inversion H'; subst.
  - reflexivity.
  - f_equal; eauto.
Qed.

(** X10.  Examples drawn with the same explicit seed extend each other:
    the input batch for the batch size [N + M] has the tree definition of
    the one for [N], and each of its leaves starts with the elements of the
    leaf at the same position of the batch for [N].  (Without a seed every
    call has a generator of its own, and nothing relates two calls.) *)
Theorem example_data_prefix (env : Env) (pre : option preprocessor) (N M : Z)
    (z : Z) (ed1 ed2 : ExampleData) :
  (0 <= M)%Z ->
  example_data env pre N (Some z) = Ok ed1 ->
  example_data env pre (N + M) (Some z) = Ok ed2 ->
  Np.treedef (args_S (args (inputs ed1))) = Np.treedef (args_S (args (inputs ed2)))
  /\ forall (j : nat) (leaf1 leaf2 : ndarray),
       nth_error (Np.leaves (args_S (args (inputs ed1)))) j = Some leaf1 ->
       nth_error (Np.leaves (args_S (args (inputs ed2)))) j = Some leaf2 ->
       exists more : list scalar, Np.data leaf2 = (Np.data leaf1 ++ more)%list.
Proof.
  intros HM H1 H2.
  assert (HN : (1 <= N)%Z).
  { apply example_data_inv in H1.
    destruct H1 as (sp & p & samples & rnd1 & batches & S & out & rnd2
                    & _ & _ & _ & Hlen & Hb & HS & _).
    apply tree_multimap_inv in HS. destruct HS as (Hne & _).
    apply Forall2_length in Hb.
    destruct batches as [|b batches]; [congruence|]. simpl in Hb. lia. }
  destruct (example_data_columns _ _ _ _ H1)
    as (sp1 & p1 & batches1 & Hsp1 & Hp1 & Hb1 & Hdef1 & Hcols1).
  destruct (example_data_columns _ _ _ _ H2)
    as (sp2 & p2 & batches2 & Hsp2 & Hp2 & Hb2 & Hdef2 & Hcols2).
  assert (sp2 = sp1) by congruence. assert (p2 = p1) by congruence. subst sp2 p2.
  replace (Z.to_nat (N + M)) with (Z.to_nat N + Z.to_nat M) in Hb2 by lia.
  rewrite draw_app in Hb2.
  apply Forall2_app_inv_l in Hb2.
  destruct Hb2 as (b1' & b2' & Hb1' & _ & ->).
  assert (b1' = batches1).
  { eapply Forall2_functional; [|exact Hb1'|exact Hb1].
    intros x y y' Hy Hy'. congruence. }
  subst b1'.
  assert (Hne : batches1 <> []).
  { apply Forall2_length in Hb1.
    rewrite draw_length in Hb1. destruct batches1; [simpl in Hb1; lia | discriminate]. }
  split.
  - destruct batches1 as [|b0 rest]; [congruence|].
    inversion Hdef1; subst. inversion Hdef2; subst. congruence.
  - intros j leaf1 leaf2 Hj1 Hj2.
    destruct (Hcols1 j leaf1 Hj1) as (col1 & Hc1 & Hd1 & _).
    destruct (Hcols2 j leaf2 Hj2) as (col2 & Hc2 & Hd2 & _).
    apply Forall2_app_inv_l in Hc2. destruct Hc2 as (c1 & c2 & Hc1' & _ & ->).
    assert (c1 = col1).
    { eapply Forall2_functional; [|exact Hc1'|exact Hc1].
      intros x y y' Hy Hy'. congruence. }
    subst c1. exists (List.concat (map (@Np.data scalar) c2)).
    rewrite Hd2, Hd1, map_app, concat_app. reflexivity.
Qed.

(** X11.  The five type errors that [V] raises itself are told apart by
    their messages, whatever parameter list, type name, class name, element
    type or shapes they report. *)
Theorem errors_distinct (params : list string) (type_name cls : string)
    (d : Np.DType) (expected actual : list nat) :
  signature_error params <> space_type_error type_name
  /\ signature_error params <> return_type_error cls
  /\ signature_error params <> return_dtype_error d
  /\ signature_error params <> return_shape_error expected actual
  /\ space_type_error type_name <> return_type_error cls
  /\ space_type_error type_name <> return_dtype_error d
  /\ space_type_error type_name <> return_shape_error expected actual
  /\ return_type_error cls <> return_dtype_error d
  /\ return_type_error cls <> return_shape_error expected actual
  /\ return_dtype_error d <> return_shape_error expected actual.
Proof.
  unfold signature_error, space_type_error, return_type_error,
    return_dtype_error, return_shape_error.
  repeat split; simpl; intros H; discriminate H.
Qed.

End Wrapper.

End V.

(** ** A concrete scenario

    A discrete observation space of size 4, observations preprocessed into
    one-hot rows, and a forward function that sums its input over the last
    axis.  Array elements are integers here, pytrees have a single leaf,
    random generators and key states are counters. *)

Module Scenario.

Definition promote (d1 d2 : Np.DType) : Np.DType := d1.

Definition tree_eq_dec (d1 d2 : unit) : {d1 = d2} + {d1 <> d2} :=
  match d1, d2 with tt, tt => left eq_refl end.

(** Objects other than arrays are known by their class name; they cannot be
    subscripted or turned into arrays. *)
Definition getitem0_object (o : string) : result (V.value Z string) :=
  Raise (TypeError "object is not subscriptable").

Definition asarray_object (o : string) : result (Np.ndarray Z) :=
  Raise (TypeError "object is not an array").

(** A space is [Discrete(n)], a generator counts its draws. *)
Definition seeded (seed : option Z) : nat :=
  match seed with Some z => Z.to_nat z | None => 0 end.

Definition sample (n : nat) (rnd : nat) : nat * nat := (rnd mod n, S rnd).

Definition normal (rnd : nat) : Z * nat := (Z.of_nat rnd, S rnd).

(** The one-hot row of [x] as a batch of one. *)
Definition one_hot (n : nat) (x : nat) : result (Np.pytree Z unit) :=
  Ok {| Np.treedef := tt;
        Np.leaves :=
          [ {| Np.dtype := Np.float32; Np.shape := [1; n];
               Np.data := map (fun i => if Nat.eqb i x then 1%Z else 0%Z) (seq 0 n) |} ] |}.

Definition preprocess_variate (o : Gym.object nat)
    : result (nat -> result (Np.pytree Z unit)) :=
  match o with
  | Gym.IsSpace n => Ok (one_hot n)
  | Gym.Other _ => Raise (TypeError "unsupported space")
  end.

Definition split (ks : nat) : nat * nat := (ks, S ks).

(** [S.sum(axis=-1)] for a pytree that is one two-dimensional array. *)
Fixpoint row_sums (rows width : nat) (xs : list Z) : list Z :=
  match rows with
  | O => []
  | S rows' =>
      fold_right Z.add 0%Z (firstn width xs) :: row_sums rows' width (skipn width xs)
  end.

Definition sum_last_axis (batch : Np.pytree Z unit) : result (V.value Z string) :=
  match Np.leaves batch with
  | [a] =>
      match Np.shape a with
      | [rows; width] =>
          Ok (V.Array string {| Np.dtype := Np.dtype a; Np.shape := [rows];
                                Np.data := row_sums rows width (Np.data a) |})
      | _ => Raise (ValueError "expected a two-dimensional array")
      end
  | _ => Raise (TypeError "expected a single array")
  end.

(** The forward function; it counts its calls in the function state. *)
Definition func : V.Func Z unit string unit nat nat :=
  V.mk_Func ["S"; "is_training"]%string
            (fun _ _ _ => Ok (tt, 0))
            (fun _ st _ batch _ => v <- sum_last_axis batch ;; Ok (v, S st)).

(** The same forward pass declared as [func(S)]. *)
Definition func_one_parameter : V.Func Z unit string unit nat nat :=
  V.mk_Func ["S"]%string (V.init func) (V.apply func).

(** A function that returns a tuple. *)
Definition func_tuple : V.Func Z unit string unit nat nat :=
  V.mk_Func ["S"; "is_training"]%string (V.init func)
            (fun _ st _ _ _ => Ok (V.Object Z "tuple"%string, st)).

Definition env : Gym.Env nat := Gym.mk_Env (Gym.IsSpace 4).

(** An environment whose [observation_space] is an [int]. *)
Definition env_int : Gym.Env nat := Gym.mk_Env (Gym.Other "int").

Definition example_data :=
  V.example_data promote false tree_eq_dec seeded sample normal preprocess_variate.

Definition init :=
  V.__init__ (Params := unit) (FState := nat) promote false tree_eq_dec
             (fun o : string => o) seeded sample normal preprocess_variate seeded split.

Definition call :=
  V.__call__ (TreeDef := unit) (Obs := nat) (Space := nat) (Params := unit)
             (FState := nat) getitem0_object asarray_object split.

(** The instance built from [func] and [env] with the seed 7. *)
Definition wrapper : V.t Z unit string nat nat unit nat nat nat :=
  {| V.self_attrs :=
       {| V.observation_preprocessor := one_hot 4;
          V.value_transform := V.identity_transform Z string;
          V.observation_space := Gym.IsSpace 4;
          V.random_seed := Some 7%Z |};
     V.rng_state := 9;
     V.function := V.apply func;
     V.params := tt;
     V.function_state := 0 |}.

(** The same instance with another seed and observation space recorded. *)
Definition wrapper_other_attrs : V.t Z unit string nat nat unit nat nat nat :=
  {| V.self_attrs :=
       {| V.observation_preprocessor := one_hot 4;
          V.value_transform := V.identity_transform Z string;
          V.observation_space := Gym.Other "int";
          V.random_seed := None |};
     V.rng_state := 9;
     V.function := V.apply func;
     V.params := tt;
     V.function_state := 5 - 5 |}.

(** The observation 2 as a batch of one, and the sum of its row. *)
Definition batch2 : Np.pytree Z unit :=
  {| Np.treedef := tt;
     Np.leaves := [ {| Np.dtype := Np.float32; Np.shape := [1; 4];
                       Np.data := [0; 0; 1; 0]%Z |} ] |}.

Definition raw2 : Np.ndarray Z :=
  {| Np.dtype := Np.float32; Np.shape := [1]; Np.data := [1%Z] |}.

(** Two samples, drawn and preprocessed with the seed 1. *)
Definition example2 : V.ExampleData Z unit :=
  {| V.inputs :=
       {| V.args :=
            {| V.args_S :=
                 {| Np.treedef := tt;
                    Np.leaves :=
                      [ {| Np.dtype := Np.float32; Np.shape := [2; 4];
                           Np.data := [0; 1; 0; 0; 0; 0; 1; 0]%Z |} ] |};
               V.is_training := true |};
          V.static_argnums := [1] |};
     V.output := {| Np.dtype := Np.float32; Np.shape := [2];
                    Np.data := [3; 4]%Z |} |}.

(** The example batch of the constructor, for the seed 7. *)
Definition example1 : V.ExampleData Z unit :=
  {| V.inputs :=
       {| V.args :=
            {| V.args_S :=
                 {| Np.treedef := tt;
                    Np.leaves :=
                      [ {| Np.dtype := Np.float32; Np.shape := [1; 4];
                           Np.data := [0; 0; 0; 1]%Z |} ] |};
               V.is_training := true |};
          V.static_argnums := [1] |};
     V.output := {| Np.dtype := Np.float32; Np.shape := [1];
                    Np.data := [8%Z] |} |}.

(** The value 1 as a zero-dimensional array. *)
Definition one : Np.ndarray Z :=
  {| Np.dtype := Np.float32; Np.shape := []; Np.data := [1%Z] |}.

End Scenario.

Example scenario_construction :
  Scenario.init Scenario.func Scenario.env None None (Some 7%Z) = Ok Scenario.wrapper.
Proof. reflexivity. Qed.

Example scenario_call :
  Scenario.call 2 Scenario.wrapper
  = (Ok Scenario.one,
     {| V.self_attrs := V.self_attrs Scenario.wrapper; V.rng_state := 10;
        V.function := V.function Scenario.wrapper; V.params := tt;
        V.function_state := 0 |}).
Proof. reflexivity. Qed.

Example scenario_example_data :
  Scenario.example_data Scenario.env None 2 (Some 1%Z) = Ok Scenario.example2.
Proof. reflexivity. Qed.

Example repr_tuple_1 : Fmt.repr_tuple [1] = "(1,)".
Proof. reflexivity. Qed.

Example repr_tuple_23 : Fmt.repr_tuple [2; 13] = "(2, 13)".
Proof. reflexivity. Qed.

Example scenario_signature_message :
  V.signature_error ["S"; "training"]%string
  = TypeError "func has bad signature; expected: func(S, is_training), got: func(S, training)".
Proof. reflexivity. Qed.

Example scenario_shape_message :
  V.return_shape_error [1] [1; 4]
  = TypeError "func has bad return shape, expected: (1,), got: (1, 4)".
Proof. reflexivity. Qed.

(** ** The theorems at the scenario *)

(** Every listed sample is preprocessed into a batch of one of the given
    layout. *)
Ltac batches_of_one :=
  simpl;
  repeat (constructor;
          [eexists; split; [reflexivity | split; [reflexivity | repeat constructor]] | ]);
  constructor.

Lemma call_pipeline_witness :
  fst (Scenario.call 2 Scenario.wrapper) = Ok Scenario.one.
Proof.
  exact (proj2 (V.call_pipeline Scenario.getitem0_object Scenario.asarray_object
                                Scenario.split Scenario.wrapper 2)
               Scenario.batch2 (V.Array string Scenario.raw2) 1 Scenario.raw2 0
               eq_refl eq_refl eq_refl eq_refl).
Defined.

Lemma check_signature_witness :
  Scenario.init Scenario.func_one_parameter Scenario.env None None (Some 7%Z)
  = Raise (V.signature_error ["S"]%string).
Proof.
  assert (Hne : V.parameters Scenario.func_one_parameter <> ["S"; "is_training"]%string)
    by discriminate.
  destruct (proj1 (V.check_signature_spec
                     Scenario.promote false Scenario.tree_eq_dec
                     (fun o : string => o) Scenario.seeded Scenario.sample
                     Scenario.normal Scenario.preprocess_variate Scenario.seeded
                     Scenario.split (V.self_attrs Scenario.wrapper)
                     Scenario.func_one_parameter) Hne) as (_ & _ & Hinit).
  exact (Hinit Scenario.env None None (Some 7%Z) (Scenario.one_hot 4)
               (V.identity_transform Z string) eq_refl eq_refl).
Defined.

Lemma check_output_witness :
  exists e,
    Scenario.init Scenario.func_tuple Scenario.env None None (Some 7%Z) = Raise e
    /\ V.output_violation (fun o : string => o) (V.Object Z "tuple"%string)
                          (V.output Scenario.example1) e.
Proof.
  pose proof (V.check_output_spec
                Scenario.promote false Scenario.tree_eq_dec
                (fun o : string => o) Scenario.seeded Scenario.sample
                Scenario.normal Scenario.preprocess_variate unit nat
                Scenario.seeded Scenario.split) as (_ & _ & _ & _ & _ & Hinit).
  destruct (Hinit Scenario.func_tuple Scenario.env None None (Some 7%Z)
                  (Scenario.one_hot 4) (V.identity_transform Z string)
                  Scenario.example1 tt 0 0 (V.Object Z "tuple"%string)
                  eq_refl eq_refl eq_refl eq_refl eq_refl) as (_ & Hbad & _).
  destruct Hbad as [e [He Hv]].
  - intros (a & Ha & _). discriminate.
  - exists e. split; [exact He | exact Hv].
Defined.



Lemma example_data_space_guard_witness :
  Scenario.example_data Scenario.env_int None 3 None
  = Raise (V.space_type_error "int")
  /\ (is_type_error (Scenario.example_data Scenario.env None 2 (Some 1%Z)) = true
      <-> Gym.isinstance_Space (Gym.observation_space Scenario.env) = false).
Proof.
  pose proof (V.example_data_space_guard
                Scenario.promote false Scenario.tree_eq_dec Scenario.seeded
                Scenario.sample Scenario.normal Scenario.preprocess_variate)
    as [Hguard Hiff].
  split.
  - exact (proj1 (Hguard Scenario.env_int None 3%Z None "int"%string eq_refl)).
  - apply (Hiff Scenario.env None (Scenario.one_hot 4) 2%Z (Some 1%Z) tt [[4]]).
    + lia.
    + intros sp Hsp. split; [reflexivity|].
      inversion Hsp; subst. batches_of_one.
Defined.

Lemma call_inverse_transform_witness :
  fst (Scenario.call 2 Scenario.wrapper) = Ok Scenario.one.
Proof.
  exact (proj2 (V.call_inverse_transform
                  Scenario.getitem0_object Scenario.asarray_object Scenario.split
                  Scenario.wrapper 2 (S := Scenario.batch2)
                  (raw := V.Array string Scenario.raw2) (st' := 1)
                  eq_refl eq_refl)
               eq_refl).
Defined.

Lemma call_deterministic_witness :
  fst (Scenario.call 2 Scenario.wrapper)
  = fst (Scenario.call 2 Scenario.wrapper_other_attrs).
Proof.
  exact (proj1 (V.call_deterministic
                  unit Scenario.getitem0_object Scenario.asarray_object
                  nat unit nat Scenario.split 2)
               Scenario.wrapper Scenario.wrapper_other_attrs
               eq_refl eq_refl eq_refl eq_refl eq_refl eq_refl).
Defined.



(** ** Inputs on which [example_data] does not return *)


(** C6: with a gym space and a batch size of 0, [example_data] raises a type
    error although the observation space is of the recognised kind; so it
    does when the preprocessor it is given raises one. *)
Lemma example_data_type_error_counterexample :
  Gym.isinstance_Space (Gym.observation_space Scenario.env) = true
  /\ is_type_error (Scenario.example_data Scenario.env None 0 None) = true
  /\ ~ (is_type_error (Scenario.example_data Scenario.env None 0 None) = true
        <-> Gym.isinstance_Space (Gym.observation_space Scenario.env) = false)
  /\ is_type_error
       (Scenario.example_data Scenario.env
          (Some (fun _ : nat => Raise (TypeError "unsupported observation"))) 1 None)
     = true.
Proof.
  split; [reflexivity|]. split; [reflexivity|]. split; [|reflexivity].
  intros [H _]. specialize (H eq_refl). discriminate.
Qed.

(** ** Further cases of the scenario *)

Module Cases.

(** A preprocessor that rejects the observation 2. *)
Definition picky (x : nat) : result (Np.pytree Z unit) :=
  if Nat.eqb x 2 then Raise (ValueError "observation out of range")
  else Scenario.one_hot 4 x.

Definition with_attrs (pre : nat -> result (Np.pytree Z unit))
    (vt : V.ValueTransform Z string) : V.t Z unit string nat nat unit nat nat nat :=
  {| V.self_attrs :=
       {| V.observation_preprocessor := pre;
          V.value_transform := vt;
          V.observation_space := Gym.IsSpace 4;
          V.random_seed := Some 7%Z |};
     V.rng_state := 9;
     V.function := V.apply Scenario.func;
     V.params := tt;
     V.function_state := 0 |}.

(** The instance of the scenario with the preprocessor [picky]. *)
Definition wrapper_picky := with_attrs picky (V.identity_transform Z string).

(** An instance whose forward transform always raises. *)
Definition wrapper_failing_transform :=
  with_attrs (Scenario.one_hot 4)
             (V.mk_ValueTransform
                (fun _ : V.value Z string => Raise (ValueError "no forward transform"))
                (fun x : V.value Z string => Ok x)).

(** An instance whose inverse function returns a matrix. *)
Definition matrix : Np.ndarray Z :=
  {| Np.dtype := Np.float32; Np.shape := [2; 2]; Np.data := [1; 2; 3; 4]%Z |}.

Definition wrapper_matrix :=
  with_attrs (Scenario.one_hot 4)
             (V.mk_ValueTransform
                (fun x : V.value Z string => Ok x)
                (fun _ : V.value Z string => Ok (V.Array string matrix))).

(** The example of batch size 1 for the seed 1. *)
Definition example1_seed1 : V.ExampleData Z unit :=
  {| V.inputs :=
       {| V.args :=
            {| V.args_S :=
                 {| Np.treedef := tt;
                    Np.leaves :=
                      [ {| Np.dtype := Np.float32; Np.shape := [1; 4];
                           Np.data := [0; 1; 0; 0]%Z |} ] |};
               V.is_training := true |};
          V.static_argnums := [1] |};
     V.output := {| Np.dtype := Np.float32; Np.shape := [1];
                    Np.data := [2%Z] |} |}.

End Cases.

Lemma call_raises_witness :
  fst (Scenario.call 2 Cases.wrapper_picky)
  = Raise (ValueError "observation out of range").
Proof.
  apply (proj2 (V.call_raises Scenario.getitem0_object Scenario.asarray_object
                              Scenario.split Cases.wrapper_picky 2
                              (ValueError "observation out of range"))).
  left. reflexivity.
Defined.

Lemma call_reads_rng_once_witness :
  Scenario.call 2 Cases.wrapper_picky
  = (Raise (ValueError "observation out of range"), Cases.wrapper_picky)
  /\ V.rng_state (snd (Scenario.call 3 (snd (Scenario.call 2 Scenario.wrapper)))) = 11.
Proof.
  split.
  - exact (proj1 (V.call_reads_rng_once
                    Scenario.getitem0_object Scenario.asarray_object
                    Scenario.split Cases.wrapper_picky 2)
                 (ValueError "observation out of range") eq_refl).
  - destruct (V.call_reads_rng_once
                Scenario.getitem0_object Scenario.asarray_object
                Scenario.split Scenario.wrapper 2) as (_ & _ & Htwice).
    exact (Htwice 3 Scenario.batch2
                  {| Np.treedef := tt;
                     Np.leaves := [ {| Np.dtype := Np.float32; Np.shape := [1; 4];
                                       Np.data := [0; 0; 0; 1]%Z |} ] |}
                  eq_refl eq_refl).
Defined.

Lemma call_first_slice_witness :
  fst (Scenario.call 2 Cases.wrapper_matrix)
  = Ok {| Np.dtype := Np.float32; Np.shape := [2]; Np.data := [1; 2]%Z |}.
Proof.
  exact (proj1 (V.call_first_slice
                  Scenario.getitem0_object Scenario.asarray_object Scenario.split
                  Cases.wrapper_matrix 2 (S := Scenario.batch2)
                  (raw := V.Array string Scenario.raw2) (st' := 1)
                  (a := Cases.matrix) eq_refl eq_refl eq_refl)
               1 [2] eq_refl).
Defined.

Lemma call_ignores_transform_func_witness :
  fst (Scenario.call 2 Scenario.wrapper)
  = fst (Scenario.call 2 Cases.wrapper_failing_transform).
Proof.
  exact (V.call_ignores_transform_func
           Scenario.getitem0_object Scenario.asarray_object Scenario.split 2
           Scenario.wrapper Cases.wrapper_failing_transform
           eq_refl eq_refl eq_refl eq_refl eq_refl eq_refl).
Defined.




Lemma check_output_against_example_witness :
  V._check_output (fun o : string => o)
                  (V.Array string {| Np.dtype := Np.float32; Np.shape := [2];
                                     Np.data := [5; 6]%Z |})
                  (V.output Scenario.example2)
  = Ok tt.
Proof.
  apply (proj1 (V.check_output_against_example
                  Scenario.promote false Scenario.tree_eq_dec
                  (fun o : string => o) Scenario.seeded Scenario.sample
                  Scenario.normal Scenario.preprocess_variate
                  Scenario.env None 2 (Some 1%Z) (ed := Scenario.example2)
                  (V.Array string {| Np.dtype := Np.float32; Np.shape := [2];
                                     Np.data := [5; 6]%Z |})
                  eq_refl)).
  eexists. repeat split; reflexivity.
Defined.

Lemma example_data_rows_witness :
  exists batches : list (Np.pytree Z unit),
    Z.of_nat (List.length batches) = 2%Z
    /\ Forall2 (fun x b => Scenario.one_hot 4 x = Ok b) [1; 2] batches.
Proof.
  destruct (V.example_data_rows
              Scenario.promote false Scenario.tree_eq_dec Scenario.seeded
              Scenario.sample Scenario.normal Scenario.preprocess_variate
              Scenario.env None 2 (Some 1%Z) (ed := Scenario.example2) eq_refl)
    as (sp & p & batches & Hsp & Hp & Hlen & Hb & _).
  exists batches. split; [exact Hlen|].
  inversion Hsp; subst sp. inversion Hp; subst p. exact Hb.
Defined.

Lemma example_data_prefix_witness :
  exists more : list Z, [0; 1; 0; 0; 0; 0; 1; 0]%Z = ([0; 1; 0; 0]%Z ++ more)%list.
Proof.
  destruct (V.example_data_prefix
              Scenario.promote false Scenario.tree_eq_dec Scenario.seeded
              Scenario.sample Scenario.normal Scenario.preprocess_variate
              Scenario.env None 1 (M := 1) 1%Z
              (ed1 := Cases.example1_seed1) (ed2 := Scenario.example2)
              ltac:(lia) eq_refl eq_refl) as [_ Hleaf].
  exact (Hleaf 0
               {| Np.dtype := Np.float32; Np.shape := [1; 4];
                  Np.data := [0; 1; 0; 0]%Z |}
               {| Np.dtype := Np.float32; Np.shape := [2; 4];
                  Np.data := [0; 1; 0; 0; 0; 0; 1; 0]%Z |}
               eq_refl eq_refl).
Defined.

Lemma init_defaults_witness :
  Scenario.init Scenario.func Scenario.env None
                (Some (V.IsTuple
                         [ (fun _ : V.value Z string => Raise (ValueError "no forward transform"));
                           (fun x : V.value Z string => Ok x) ]))
                (Some 7%Z)
  = Ok Cases.wrapper_failing_transform
  /\ V.value_transform (V.self_attrs Cases.wrapper_failing_transform)
     = V.mk_ValueTransform
         (fun _ : V.value Z string => Raise (ValueError "no forward transform"))
         (fun x : V.value Z string => Ok x)
  /\ Scenario.preprocess_variate (Gym.observation_space Scenario.env)
     = Ok (V.observation_preprocessor (V.self_attrs Cases.wrapper_failing_transform)).
Proof.
  pose proof (V.init_defaults
                Scenario.promote false Scenario.tree_eq_dec
                (fun o : string => o) Scenario.seeded Scenario.sample
                Scenario.normal Scenario.preprocess_variate Scenario.seeded
                Scenario.split Scenario.func Scenario.env None
                (Some (V.IsTuple
                         [ (fun _ : V.value Z string => Raise (ValueError "no forward transform"));
                           (fun x : V.value Z string => Ok x) ]))
                (Some 7%Z))
    as (_ & _ & _ & _ & _ & _ & _ & Hself).
  destruct (Hself Cases.wrapper_failing_transform eq_refl)
    as (_ & _ & Hpre & _ & _ & _ & Htuple & _).
  split; [reflexivity|]. split.
  - exact (proj1 (Htuple _ _ eq_refl)).
  - exact (Hpre eq_refl).
Defined.
